(** * The code-generation stream endpoint
      (src/app/api/generate-ai-code-stream/route.ts)

    A shallow embedding of the [POST] handler: the request validator, the
    model selector, the relay loop with its two tag scanners and rolling
    buffer, the terminal events and the update of the process-wide
    conversation state.

    Conventions.
    - A JavaScript string is the list of its UTF-16 code units ([jsstring]);
      [js "..."] turns an ASCII literal into one.
    - A JavaScript number is an IEEE 754 binary64 value ([spec_float]).
    - Code that can throw lives in the monad [M]: a state transformer whose
      outcome is either a returned value or a thrown one.
    - What the outside world decides (the parsed body, what the model call
      does, what the provider's token stream yields) is an input, [env];
      the token stream is finite.
    - The writer keeps the event objects handed to [sendProgress], not the
      bytes of their frames, and a write to it does not fail.
    - The closure that relays the stream is not awaited by the handler; here
      it runs to its end before the handler returns, which orders the same
      effects on the writer and on the conversation state.
    - [console.log] and [console.error] are left out. *)

From Stdlib Require Import Ascii String DecimalString SpecFloat.
From Stdlib Require Import NArith ZArith Lia Bool List.
From Stdlib Require DecimalPos DecimalZ.
Import ListNotations.

Local Open Scope list_scope.
Local Set Warnings "-register-all".

(** ** Strings *)

Definition jsstring := list N.

Definition js (s : string) : jsstring :=
  map N_of_ascii (list_ascii_of_string s).

Fixpoint str_eqb (a b : jsstring) : bool :=
  match a, b with
  | [], [] => true
  | x :: a', y :: b' => N.eqb x y && str_eqb a' b'
  | _, _ => false
  end.

(** [s.startsWith(p)] *)
Fixpoint startsWith (s p : jsstring) {struct p} : bool :=
  match p with
  | [] => true
  | y :: p' =>
      match s with
      | [] => false
      | x :: s' => N.eqb x y && startsWith s' p'
      end
  end.

(** [s.includes(sub)] for a string [s] *)
Fixpoint includes (s sub : jsstring) : bool :=
  startsWith s sub ||
  match s with
  | [] => false
  | _ :: s' => includes s' sub
  end.

(** [s.replace(pat, rep)] with a string pattern: only the first occurrence
    of [pat] is replaced.  The replacement strings of the source are empty,
    so the [$]-patterns of a replacement string play no part. *)
Fixpoint replace (s pat rep : jsstring) : jsstring :=
  if startsWith s pat then rep ++ skipn (length pat) s
  else match s with
       | [] => []
       | c :: s' => c :: replace s' pat rep
       end.

(** [s.slice(-n)]: the last [n] code units, the whole string when it is
    shorter. *)
Definition slice_last (n : nat) (s : jsstring) : jsstring :=
  skipn (length s - n) s.

(** White space and line terminators, what [trim] strips. *)
Definition is_white_space (c : N) : bool :=
  ((9 <=? c) && (c <=? 13) || (c =? 32) || (c =? 160) || (c =? 5760)
   || (8192 <=? c) && (c <=? 8202) || (c =? 8232) || (c =? 8233)
   || (c =? 8239) || (c =? 8287) || (c =? 12288) || (c =? 65279))%N.

Fixpoint trimStart (s : jsstring) : jsstring :=
  match s with
  | [] => []
  | c :: s' => if is_white_space c then trimStart s' else s
  end.

Definition trimEnd (s : jsstring) : jsstring := rev (trimStart (rev s)).

(** [s.trim()] *)
Definition trim (s : jsstring) : jsstring := trimEnd (trimStart s).

(** Decimal rendering of a number inside a template literal. *)
Definition nat_to_js (n : nat) : jsstring :=
  js (NilZero.string_of_uint (Nat.to_uint n)).

Definition Z_to_js (z : Z) : jsstring :=
  js (NilZero.string_of_int (Z.to_int z)).

(** ** Values *)

(** A value as [JSON.parse] yields it. *)
Inductive json : Type :=
| JNull
| JBool (b : bool)
| JNum (x : spec_float)
| JStr (s : jsstring)
| JArr (items : list json)
| JObj (props : list (jsstring * json)).

(** An absent property is [undefined]: [None]. *)
Definition value := option json.

(** JavaScript truthiness. *)
Definition truthy (v : value) : bool :=
  match v with
  | None => false
  | Some JNull => false
  | Some (JBool b) => b
  | Some (JNum (S754_zero _)) => false
  | Some (JNum S754_nan) => false
  | Some (JNum _) => true
  | Some (JStr s) => negb (str_eqb s [])
  | Some (JArr _) => true
  | Some (JObj _) => true
  end.

(** The property [k] of a parsed object; when a key is repeated in the JSON
    text the last one stays. *)
Fixpoint lookup (k : jsstring) (props : list (jsstring * json)) : value :=
  match props with
  | [] => None
  | (k', v) :: rest =>
      match lookup k rest with
      | Some v' => Some v'
      | None => if str_eqb k k' then Some v else None
      end
  end.

(** What can be thrown: an [Error] object with its message, or a value that
    is no [Error] and has no [message] (a string, a number).  A thrown
    [null] or [undefined] is not modelled. *)
Inductive thrown : Type :=
| JsError (message : jsstring)
| NonError.

(** ** Model selector (lines 54-68) *)

Inductive provider : Type := Groq | Anthropic | OpenAI | Cerebras.

(** The model handle a provider client returns for a model name. *)
Record aiModel : Type := { client : provider; modelId : jsstring }.

Definition groq (name : jsstring) : aiModel :=
  {| client := Groq; modelId := name |}.
Definition anthropic (name : jsstring) : aiModel :=
  {| client := Anthropic; modelId := name |}.
Definition openai (name : jsstring) : aiModel :=
  {| client := OpenAI; modelId := name |}.
Definition cerebras (name : jsstring) : aiModel :=
  {| client := Cerebras; modelId := name |}.

Definition selectModel (model : jsstring) : aiModel :=
  if startsWith model (js "anthropic/") then
    anthropic (replace model (js "anthropic/") [])
  else if startsWith model (js "openai/") then
    if includes model (js "gpt-oss") then groq model
    else openai (replace model (js "openai/") [])
  else if startsWith model (js "cerebras/") then
    cerebras (replace model (js "cerebras/") [])
  else
    cerebras model.


(** ** Tag scanners (lines 141-177) *)

Fixpoint takeWhile (p : N -> bool) (s : jsstring) : jsstring :=
  match s with
  | [] => []
  | c :: s' => if p c then c :: takeWhile p s' else []
  end.

(** The class [[^<]]. *)
Definition not_lt (c : N) : bool := negb (c =? 60)%N.

(** [/<package>([^<]+)<\/package>/] tried at the head of [s]: the captured
    group and the length of the whole match.  The group is the longest run
    of code units other than [<]; giving back part of it cannot help, since
    the next code unit would again not be the [<] that must follow. *)
Definition match_package (s : jsstring) : option (jsstring * nat) :=
  if startsWith s (js "<package>") then
    let rest := skipn 9 s in
    let name := takeWhile not_lt rest in
    match name with
    | [] => None
    | _ :: _ =>
        if startsWith (skipn (length name) rest) (js "</package>")
        then Some (name, 9 + length name + 10)
        else None
    end
  else None.

(** The shortest prefix of [s] that is followed by [pat]: what a lazy
    [[\s\S]*?] captures before a literal. *)
Fixpoint until (pat s : jsstring) : option jsstring :=
  if startsWith s pat then Some []
  else match s with
       | [] => None
       | c :: s' => option_map (cons c) (until pat s')
       end.

(** [/<packages>([\s\S]*?)<\/packages>/] tried at the head of [s]. *)
Definition match_packages (s : jsstring) : option (jsstring * nat) :=
  if startsWith s (js "<packages>") then
    match until (js "</packages>") (skipn 10 s) with
    | Some body => Some (body, 10 + length body + 11)
    | None => None
    end
  else None.

(** The groups captured by the successive calls [regex.exec(s)] of a
    [while ((m = regex.exec(s)) !== null)] loop over a fresh regular
    expression with the [g] flag: the matches from left to right, each
    search starting where the previous match ended ([lastIndex]).  [skip]
    counts the code units still to pass before the next search may start. *)
Fixpoint exec_all (m : jsstring -> option (jsstring * nat)) (skip : nat)
    (s : jsstring) : list jsstring :=
  match s with
  | [] => []
  | _ :: s' =>
      match skip with
      | S k => exec_all m k s'
      | O =>
          match m s with
          | Some (group, len) => group :: exec_all m (pred len) s'
          | None => exec_all m 0 s'
          end
      end
  end.

(** The class [[\n,]]. *)
Definition is_separator (c : N) : bool := ((c =? 10) || (c =? 44))%N.

(** [s.split(/[\n,]+/)]: the pieces between the maximal runs of
    separators; a leading or trailing run leaves an empty piece at that
    end, and the empty string splits into one empty piece.  [cur] is the
    piece being read, [in_sep] tells that a run of separators is being
    passed. *)
Fixpoint split_from (in_sep : bool) (cur s : jsstring) : list jsstring :=
  match s with
  | [] => [cur]
  | c :: s' =>
      if is_separator c then
        if in_sep then split_from true cur s'
        else cur :: split_from true [] s'
      else split_from false (cur ++ [c]) s'
  end.

Definition split (s : jsstring) : list jsstring := split_from false [] s.

(** [packagesContent.split(...).map(trim).filter(pkg => pkg.length > 0)] *)
Definition packagesList (packagesContent : jsstring) : list jsstring :=
  filter (fun pkg => 0 <? length pkg) (map trim (split packagesContent)).

(** [arr.includes(x)] for an array of strings *)
Definition array_includes (arr : list jsstring) (x : jsstring) : bool :=
  existsb (str_eqb x) arr.

(** ** Events and the conversation store *)

(** A [StreamEvent], the object handed to [sendProgress]; the constructor
    is its [type] field.  An [undefined] field is [None]. *)
Inductive event : Type :=
| TextEvent (content : jsstring)
| PackageEvent (name message : jsstring)
| CompleteEvent (response : jsstring) (packages : list jsstring)
    (message : jsstring)
| ErrorEvent (error : option jsstring).

Inductive role : Type := user | assistant.

Record metadata : Type := {
  editType : option jsstring;
  addedPackages : list jsstring
}.

Record message : Type := {
  id : jsstring;
  msg_role : role;
  content : value;
  timestamp : Z;
  msg_metadata : metadata
}.

(** The calls the handler makes to its collaborators, in order. *)
Inductive call : Type :=
| ProviderCall (m : aiModel)
| StreamTextCall (model : aiModel) (system : jsstring)
    (prompt temperature : value) (maxTokens : N)
| NewTransformStream.

(** The provider's token stream: the chunks it yields, then exhaustion or
    a throw. *)
Record textStream : Type := {
  chunks : list jsstring;
  failure : option thrown
}.

Inductive outcome (A : Type) : Type :=
| Returned (a : A)
| Threw (e : thrown).
Arguments Returned {A} a.
Arguments Threw {A} e.

(** What the handler gives back. *)
Inductive response : Type :=
| JsonResponse (status : nat) (error : jsstring)
| EventStream.

(** Where the engine raises a [TypeError] of its own. *)
Inductive type_error_site : Type :=
| DestructureNull
| StartsWithMissing
| ConversationStateNull.

(** The messages of V8 for the engine's own [TypeError]s. *)
Definition v8_message (site : type_error_site) : jsstring :=
  match site with
  | DestructureNull =>
      js "Cannot destructure property 'prompt' of '(intermediate value)' as it is null."
  | StartsWithMissing => js "model.startsWith is not a function"
  | ConversationStateNull =>
      js "Cannot read properties of null (reading 'context')"
  end.

(** What a template literal makes of an object. *)
Definition object_to_string (v : json) : outcome jsstring :=
  Returned (js "[object Object]").

Section Handler.

(** [ConversationState] is declared outside this file
    ([@/types/conversation]): beside [context.messages] and [lastUpdated],
    which the handler touches, the context and the state hold [C] and [R]. *)
Context {C R : Type}.

(** The text of the engine's own [TypeError] messages. *)
Variable engine_message : type_error_site -> jsstring.

(** The conversion to a string of a value spliced into a template literal;
    for a value that is not a string it is the engine's business. *)
Variable ToString_other : json -> outcome jsstring.

Record context : Type := {
  messages : list message;
  context_rest : C
}.

Record ConversationState : Type := {
  conv_context : context;
  lastUpdated : Z;
  state_rest : R
}.

(** What the environment decides for one request. *)
Record env : Type := {
  (** [await request.json()] *)
  request_json : outcome json;
  (** [await streamText({...})] *)
  stream_text : outcome textStream
}.

Record state : Type := {
  (** [global.conversationState] *)
  conversationState : option ConversationState;
  (** [Date.now()]: the reading of the [n]-th call, and the calls so far *)
  clock : nat -> Z;
  ticks : nat;
  calls : list call;
  (** the writer: what was written to it, whether it is closed *)
  written : list event;
  closed : bool;
  (** the handler's local variables *)
  packagesToInstall : list jsstring;
  tagBuffer : jsstring;
  fullResponse : jsstring
}.

Definition set_conversationState (v : option ConversationState) (s : state) :=
  {| conversationState := v; clock := clock s; ticks := ticks s;
     calls := calls s; written := written s; closed := closed s;
     packagesToInstall := packagesToInstall s; tagBuffer := tagBuffer s;
     fullResponse := fullResponse s |}.

Definition set_ticks (v : nat) (s : state) :=
  {| conversationState := conversationState s; clock := clock s; ticks := v;
     calls := calls s; written := written s; closed := closed s;
     packagesToInstall := packagesToInstall s; tagBuffer := tagBuffer s;
     fullResponse := fullResponse s |}.

Definition set_calls (v : list call) (s : state) :=
  {| conversationState := conversationState s; clock := clock s;
     ticks := ticks s; calls := v; written := written s; closed := closed s;
     packagesToInstall := packagesToInstall s; tagBuffer := tagBuffer s;
     fullResponse := fullResponse s |}.

Definition set_written (v : list event) (s : state) :=
  {| conversationState := conversationState s; clock := clock s;
     ticks := ticks s; calls := calls s; written := v; closed := closed s;
     packagesToInstall := packagesToInstall s; tagBuffer := tagBuffer s;
     fullResponse := fullResponse s |}.

Definition set_closed (v : bool) (s : state) :=
  {| conversationState := conversationState s; clock := clock s;
     ticks := ticks s; calls := calls s; written := written s; closed := v;
     packagesToInstall := packagesToInstall s; tagBuffer := tagBuffer s;
     fullResponse := fullResponse s |}.

Definition set_packagesToInstall (v : list jsstring) (s : state) :=
  {| conversationState := conversationState s; clock := clock s;
     ticks := ticks s; calls := calls s; written := written s;
     closed := closed s; packagesToInstall := v; tagBuffer := tagBuffer s;
     fullResponse := fullResponse s |}.

Definition set_tagBuffer (v : jsstring) (s : state) :=
  {| conversationState := conversationState s; clock := clock s;
     ticks := ticks s; calls := calls s; written := written s;
     closed := closed s; packagesToInstall := packagesToInstall s;
     tagBuffer := v; fullResponse := fullResponse s |}.

Definition set_fullResponse (v : jsstring) (s : state) :=
  {| conversationState := conversationState s; clock := clock s;
     ticks := ticks s; calls := calls s; written := written s;
     closed := closed s; packagesToInstall := packagesToInstall s;
     tagBuffer := tagBuffer s; fullResponse := v |}.

(** ** The monad of the handler *)

Definition M (A : Type) : Type := state -> outcome A * state.

Definition ret {A} (a : A) : M A := fun s => (Returned a, s).

Definition throw {A} (e : thrown) : M A := fun s => (Threw e, s).

Definition bind {A B} (m : M A) (k : A -> M B) : M B :=
  fun s =>
    match m s with
    | (Returned a, s') => k a s'
    | (Threw e, s') => (Threw e, s')
    end.

Notation "x <- m ;; k" := (bind m (fun x => k))
  (at level 61, m at next level, right associativity).
Notation "m ;; k" := (bind m (fun _ => k))
  (at level 61, right associativity).

Definition gets {A} (f : state -> A) : M A := fun s => (Returned (f s), s).

Definition modify (f : state -> state) : M unit :=
  fun s => (Returned tt, f s).

(** [try { body } catch (error) { handler error } finally { final }] *)
Definition try_catch_finally {A} (body : M A) (handler : thrown -> M A)
    (final : M unit) : M A :=
  fun s =>
    let (r, s1) :=
      match body s with
      | (Returned a, s') => (Returned a, s')
      | (Threw e, s') => handler e s'
      end in
    match final s1 with
    | (Returned _, s2) => (r, s2)
    | (Threw e, s2) => (Threw e, s2)
    end.

(** [try { body } catch (error) { handler error }] *)
Definition try_catch {A} (body : M A) (handler : thrown -> M A) : M A :=
  fun s =>
    match body s with
    | (Returned a, s') => (Returned a, s')
    | (Threw e, s') => handler e s'
    end.

(** [(async () => { body })()], not awaited: the body runs, and a throw
    that escapes it rejects a promise nobody looks at. *)
Definition detached (body : M unit) : M unit :=
  fun s => (Returned tt, snd (body s)).

(** [for (const x of l) { body x }] *)
Fixpoint for_each {A} (l : list A) (body : A -> M unit) : M unit :=
  match l with
  | [] => ret tt
  | x :: l' => body x ;; for_each l' body
  end.

(** [for await (const chunk of stream) { body chunk }] *)
Definition for_await (stream : textStream) (body : jsstring -> M unit)
    : M unit :=
  for_each (chunks stream) body ;;
  match failure stream with
  | None => ret tt
  | Some e => throw e
  end.

(** [Date.now()] *)
Definition Date_now : M Z :=
  fun s => (Returned (clock s (ticks s)), set_ticks (S (ticks s)) s).

Definition record_call (c : call) : M unit :=
  modify (fun s => set_calls (calls s ++ [c]) s).

(** [error.message] *)
Definition message_of (e : thrown) : option jsstring :=
  match e with
  | JsError m => Some m
  | NonError => None
  end.

Definition TypeError (site : type_error_site) : thrown :=
  JsError (engine_message site).

(** ** The relay closure (lines 117-225) *)

(** [sendProgress(data)]: one frame [data: <JSON>] written to the writer.
    The frame is kept as the event object it encodes. *)
Definition sendProgress (data : event) : M unit :=
  modify (fun s => set_written (written s ++ [data]) s).

(** The [message] of a [package] event; the four code units before the
    text are the ones the source file holds there. *)
Definition package_message (name : jsstring) : jsstring :=
  [240; 376; 8220; 166]%N ++ js " Package detected: " ++ name.

Definition complete_message (response : jsstring) (packages : list jsstring)
    : jsstring :=
  js "Generated " ++ nat_to_js (length response) ++ js " characters with "
  ++ nat_to_js (length packages) ++ js " packages".

(** The body of the [for await] loop (lines 129-180). *)
Definition process_chunk (chunk : jsstring) : M unit :=
  let text := chunk in
  modify (fun s => set_fullResponse (fullResponse s ++ text) s) ;;
  sendProgress (TextEvent text) ;;
  buffer <- gets tagBuffer ;;
  let searchText := buffer ++ text in
  for_each (exec_all match_package 0 searchText) (fun group =>
    let packageName := trim group in
    installed <- gets packagesToInstall ;;
    if negb (str_eqb packageName [])
       && negb (array_includes installed packageName)
    then
      modify (fun s =>
        set_packagesToInstall (packagesToInstall s ++ [packageName]) s) ;;
      sendProgress (PackageEvent packageName (package_message packageName))
    else ret tt) ;;
  for_each (exec_all match_packages 0 searchText) (fun group =>
    let packagesContent := trim group in
    for_each (packagesList packagesContent) (fun pkg =>
      installed <- gets packagesToInstall ;;
      if negb (array_includes installed pkg) then
        modify (fun s =>
          set_packagesToInstall (packagesToInstall s ++ [pkg]) s) ;;
        sendProgress (PackageEvent pkg (package_message pkg))
      else ret tt)) ;;
  modify (set_tagBuffer (slice_last 100 searchText)).

(** [global.conversationState.context.messages.push(m)] *)
Definition push_message (m : message) : M unit :=
  fun s =>
    match conversationState s with
    | Some cs =>
        (Returned tt,
         set_conversationState
           (Some {| conv_context :=
                      {| messages := messages (conv_context cs) ++ [m];
                         context_rest := context_rest (conv_context cs) |};
                    lastUpdated := lastUpdated cs;
                    state_rest := state_rest cs |}) s)
    | None => (Threw (TypeError ConversationStateNull), s)
    end.

(** [global.conversationState.lastUpdated = t] *)
Definition set_lastUpdated (t : Z) : M unit :=
  fun s =>
    match conversationState s with
    | Some cs =>
        (Returned tt,
         set_conversationState
           (Some {| conv_context := conv_context cs;
                    lastUpdated := t;
                    state_rest := state_rest cs |}) s)
    | None => (Threw (TypeError ConversationStateNull), s)
    end.

(** The asynchronous closure that processes the stream (lines 124-225),
    with [prompt], [isEdit] and [result.textStream] as it captures them.
    The [complete] event and both messages hold the array
    [packagesToInstall] itself; nothing is pushed to it once the loop is
    over, so its value then stands for it. *)
Definition relay (prompt isEdit : value) (textStream : textStream) : M unit :=
  try_catch_finally
    (modify (set_fullResponse []) ;;
     for_await textStream process_chunk ;;
     full <- gets fullResponse ;;
     pkgs <- gets packagesToInstall ;;
     sendProgress (CompleteEvent full pkgs (complete_message full pkgs)) ;;
     cs <- gets conversationState ;;
     match cs with
     | Some _ =>
         t1 <- Date_now ;;
         t2 <- Date_now ;;
         pkgs1 <- gets packagesToInstall ;;
         push_message
           {| id := js "msg-" ++ Z_to_js t1;
              msg_role := user;
              content := prompt;
              timestamp := t2;
              msg_metadata :=
                {| editType :=
                     Some (if truthy isEdit then js "edit" else js "generate");
                   addedPackages := pkgs1 |} |} ;;
         t3 <- Date_now ;;
         t4 <- Date_now ;;
         full2 <- gets fullResponse ;;
         pkgs2 <- gets packagesToInstall ;;
         push_message
           {| id := js "msg-" ++ Z_to_js (t3 + 1);
              msg_role := assistant;
              content := Some (JStr full2);
              timestamp := t4;
              msg_metadata :=
                {| editType := None; addedPackages := pkgs2 |} |} ;;
         t5 <- Date_now ;;
         set_lastUpdated t5
     | None => ret tt
     end)
    (fun error => sendProgress (ErrorEvent (message_of error)))
    (modify (set_closed true)).

(** ** The handler (lines 31-243) *)

Definition default_model : jsstring :=
  js "cerebras/qwen-3-235b-a22b-instruct-2507".

(** The binary64 value of the literal [0.7]: 0x1.6666666666666p-1. *)
Definition default_temperature : spec_float :=
  S754_finite false 6305039478318694 (-53).

(** The variables the destructuring of the body binds (lines 33-40). *)
Record bindings : Type := {
  prompt : value;
  model : value;
  systemPrompt : value;
  fileContents : value;
  isEdit : value;
  temperature : value
}.

(** A default applies when the property is [undefined], not when it is
    [null]. *)
Definition with_default (v : value) (d : json) : value :=
  match v with
  | None => Some d
  | Some x => Some x
  end.

(** The named properties of a parsed body; a string, number, boolean or
    array has none of the six the handler reads. *)
Definition props_of (body : json) : list (jsstring * json) :=
  match body with
  | JObj props => props
  | _ => []
  end.

Definition bindings_of (props : list (jsstring * json)) : bindings :=
  {| prompt := lookup (js "prompt") props;
     model := with_default (lookup (js "model") props) (JStr default_model);
     systemPrompt := lookup (js "systemPrompt") props;
     fileContents := lookup (js "fileContents") props;
     isEdit := with_default (lookup (js "isEdit") props) (JBool false);
     temperature := with_default (lookup (js "temperature") props)
                      (JNum default_temperature) |}.

(** Destructuring [null] throws; any other value is read property by
    property. *)
Definition destructure (body : json) : M bindings :=
  match body with
  | JNull => throw (TypeError DestructureNull)
  | _ => ret (bindings_of (props_of body))
  end.

(** Lines 54-68 on the bound [model]: a value that is not a string has no
    [startsWith] to call. *)
Definition select (model : value) : M aiModel :=
  match model with
  | Some (JStr m) =>
      let aiModel := selectModel m in
      record_call (ProviderCall aiModel) ;;
      ret aiModel
  | _ => throw (TypeError StartsWithMissing)
  end.

Definition ToString (v : json) : M jsstring :=
  fun s =>
    match v with
    | JStr x => (Returned x, s)
    | _ => (ToString_other v, s)
    end.

(** An awaited call whose outcome the environment decides. *)
Definition await {A} (o : outcome A) : M A := fun s => (o, s).

Definition system_template : jsstring :=
  js "You are an expert React developer. Create modern, responsive React applications using Vite, Tailwind CSS, and best practices.

CRITICAL RULES:
1. You MUST specify packages using <package> tags BEFORE using them in your code
2. For example: <package>three</package> or <package>@heroicons/react</package>
3. ALWAYS return complete files - never truncate with "
  ++ [34%N] ++
  js "..."
  ++ [34%N] ++
  js " or skip lines
4. Use Tailwind CSS for all styling (no separate CSS files unless specifically requested)
5. Create clean, modern, responsive designs
6. Use proper React patterns and hooks

Package Installation:
- Use <package>package-name</package> tags for individual packages
- Or use <packages>package1, package2, package3</packages> for multiple packages
- The system will automatically install these packages before creating files

File Structure:
- Always create files with proper paths (e.g., src/components/Header.jsx)
- Include all necessary imports
- Export components properly

".

(** Lines 72-97. *)
Definition build_system_prompt (systemPrompt fileContents : value)
    : M jsstring :=
  extra <- match systemPrompt with
           | Some v => if truthy systemPrompt then ToString v else ret []
           | None => ret []
           end ;;
  let fullSystemPrompt := system_template ++ extra in
  match fileContents with
  | Some v =>
      if truthy fileContents then
        files <- ToString v ;;
        ret (fullSystemPrompt
             ++ [10; 10]%N ++ js "Current project files:" ++ [10]%N ++ files)
      else ret fullSystemPrompt
  | None => ret fullSystemPrompt
  end.

(** [new TransformStream()] and its writer (lines 113-115). *)
Definition new_stream : M unit :=
  record_call NewTransformStream ;;
  modify (set_written []) ;;
  modify (set_closed false).

Definition POST (e : env) : M response :=
  try_catch
    (body <- await (request_json e) ;;
     b <- destructure body ;;
     if negb (truthy (prompt b)) then
       ret (JsonResponse 400 (js "prompt is required"))
     else
       aiModel <- select (model b) ;;
       fullSystemPrompt <-
         build_system_prompt (systemPrompt b) (fileContents b) ;;
       modify (set_packagesToInstall []) ;;
       modify (set_tagBuffer []) ;;
       record_call
         (StreamTextCall aiModel fullSystemPrompt (prompt b) (temperature b)
            8000%N) ;;
       result <- await (stream_text e) ;;
       new_stream ;;
       detached (relay (prompt b) (isEdit b) result) ;;
       ret EventStream)
    (fun error =>
       ret (JsonResponse 500
              match error with
              | JsError m => m
              | NonError => js "Failed to generate code"
              end)).

(** The state in which the relay closure starts: a fresh writer, no package
    seen, an empty tag buffer. *)
Definition opened (cs : option ConversationState) (clk : nat -> Z)
    (n : nat) (cl : list call) : state :=
  {| conversationState := cs; clock := clk; ticks := n; calls := cl;
     written := []; closed := false;
     packagesToInstall := []; tagBuffer := []; fullResponse := [] |}.

(** What a run leaves behind. *)
Definition run {A} (m : M A) (s : state) : state := snd (m s).

Definition text_contents (l : list event) : list jsstring :=
  flat_map (fun e => match e with TextEvent c => [c] | _ => [] end) l.

Definition package_names (l : list event) : list jsstring :=
  flat_map (fun e => match e with PackageEvent n _ => [n] | _ => [] end) l.

Definition error_events (l : list event) : list (option jsstring) :=
  flat_map (fun e => match e with ErrorEvent m => [m] | _ => [] end) l.

Definition package_event (name : jsstring) : event :=
  PackageEvent name (package_message name).

(** ** What the properties are stated with *)

(** [s'] is [s] after the packages [names] were newly seen and announced,
    in that order. *)
Record announced (names : list jsstring) (s s' : state) : Prop := {
  ann_conversationState : conversationState s' = conversationState s;
  ann_clock : clock s' = clock s;
  ann_ticks : ticks s' = ticks s;
  ann_calls : calls s' = calls s;
  ann_closed : closed s' = closed s;
  ann_tagBuffer : tagBuffer s' = tagBuffer s;
  ann_fullResponse : fullResponse s' = fullResponse s;
  ann_written : written s' = written s ++ map package_event names;
  ann_packages : packagesToInstall s' = packagesToInstall s ++ names;
  ann_NoDup : NoDup (packagesToInstall s) -> NoDup (packagesToInstall s')
}.

(** A loop body that returns and at most announces new packages. *)
Definition announces {A} (body : A -> M unit) : Prop :=
  forall x s, exists names s',
    body x s = (Returned tt, s') /\ announced names s s'.

(** What one pass of the loop body does to the state: [names] are the
    packages it saw for the first time. *)
Record chunk_step (chunk : jsstring) (names : list jsstring)
    (s s' : state) : Prop := {
  step_conversationState : conversationState s' = conversationState s;
  step_clock : clock s' = clock s;
  step_ticks : ticks s' = ticks s;
  step_calls : calls s' = calls s;
  step_closed : closed s' = closed s;
  step_fullResponse : fullResponse s' = fullResponse s ++ chunk;
  step_tagBuffer : tagBuffer s' = slice_last 100 (tagBuffer s ++ chunk);
  step_written :
    written s' = written s ++ TextEvent chunk :: map package_event names;
  step_packages : packagesToInstall s' = packagesToInstall s ++ names;
  step_NoDup : NoDup (packagesToInstall s) -> NoDup (packagesToInstall s')
}.

(** The events the loop writes: neither [complete] nor [error]. *)
Definition is_terminal (e : event) : bool :=
  match e with
  | CompleteEvent _ _ _ | ErrorEvent _ => true
  | TextEvent _ | PackageEvent _ _ => false
  end.

(** The tag buffer after the chunks [l], from the buffer [b]. *)
Definition roll (b : jsstring) (l : list jsstring) : jsstring :=
  fold_left (fun b c => slice_last 100 (b ++ c)) l b.

(** The conversation state after a request that ran to completion. *)
Definition user_message (prompt isEdit : value) (pkgs : list jsstring)
    (t1 t2 : Z) : message :=
  {| id := js "msg-" ++ Z_to_js t1;
     msg_role := user;
     content := prompt;
     timestamp := t2;
     msg_metadata :=
       {| editType := Some (if truthy isEdit then js "edit" else js "generate");
          addedPackages := pkgs |} |}.

Definition assistant_message (full : jsstring) (pkgs : list jsstring)
    (t3 t4 : Z) : message :=
  {| id := js "msg-" ++ Z_to_js (t3 + 1);
     msg_role := assistant;
     content := Some (JStr full);
     timestamp := t4;
     msg_metadata := {| editType := None; addedPackages := pkgs |} |}.

(** The names of the [package] events a request writes for the stream
    [st], in the order written. *)
Definition announced_packages (prompt isEdit : value) (st : textStream)
    (cs : option ConversationState) (clk : nat -> Z) (n : nat)
    (cl : list call) : list jsstring :=
  package_names (written (run (relay prompt isEdit st) (opened cs clk n cl))).

(** The block of the fifth claim: [<packages>react, lodash], a line feed,
    [moment</packages>]. *)
Definition packages_block : jsstring :=
  js "<packages>react, lodash" ++ [10%N] ++ js "moment</packages>".

(** ** Sample requests *)

(** A process with no conversation state, whose clock reads 1700000000000
    and one more at each call. *)
Definition fresh_process : state :=
  opened None (fun n => 1700000000000 + Z.of_nat n)%Z 0 [].

Definition request (props : list (jsstring * json)) (st : outcome textStream)
    : env :=
  {| request_json := Returned (JObj props); stream_text := st |}.

Definition hello : list (jsstring * json) :=
  [(js "prompt", JStr (js "hello"))].

Definition no_stream : outcome textStream :=
  Returned {| chunks := []; failure := None |}.


(** A request whose model call throws. *)
Definition rate_limited : env :=
  request hello (Threw (JsError (js "rate limited"))).

(** A conversation with no message yet. *)
Definition empty_conversation (c : C) (r : R) : ConversationState :=
  {| conv_context := {| messages := []; context_rest := c |};
     lastUpdated := 0%Z; state_rest := r |}.

(** A stream that throws after one chunk. *)
Definition broken_stream : textStream :=
  {| chunks := [js "<package>zod</package>"];
     failure := Some (JsError (js "socket hang up")) |}.

(** ** What the further properties are stated with *)

(** The system prompt of lines 72-97 as a value: the template, the caller's
    text when it is truthy, the labelled files when they are truthy. *)
Definition composed_prompt (systemPrompt fileContents : value)
    : outcome jsstring :=
  let to_string v :=
    match v with
    | JStr x => Returned x
    | _ => ToString_other v
    end in
  match match systemPrompt with
        | Some v => if truthy systemPrompt then to_string v else Returned []
        | None => Returned []
        end
  with
  | Threw e => Threw e
  | Returned extra =>
      match fileContents with
      | Some v =>
          if truthy fileContents then
            match to_string v with
            | Returned files =>
                Returned ((system_template ++ extra)
                          ++ [10; 10]%N ++ js "Current project files:"
                          ++ [10]%N ++ files)
            | Threw e => Threw e
            end
          else Returned (system_template ++ extra)
      | None => Returned (system_template ++ extra)
      end
  end.

(** The message the outer [catch] puts in the 500 body (line 239). *)
Definition failure_text (error : thrown) : jsstring :=
  match error with
  | JsError m => m
  | NonError => js "Failed to generate code"
  end.

(** The three calls of a request that gets as far as the stream. *)
Definition calls_of_stream (m sp : jsstring) (b : bindings) : list call :=
  [ProviderCall (selectModel m);
   StreamTextCall (selectModel m) sp (prompt b) (temperature b) 8000;
   NewTransformStream].

(** A state that differs from [s] at most by [extra] further calls and by
    the handler's local variables. *)
Definition untouched_but_calls (extra : list call) (s s' : state) : Prop :=
  calls s' = calls s ++ extra
  /\ written s' = written s
  /\ closed s' = closed s
  /\ conversationState s' = conversationState s
  /\ clock s' = clock s
  /\ ticks s' = ticks s.

(** The request passes validation: the body is parsed, is not [null] and
    its [prompt] is truthy. *)
Definition validated (e : env) (body : json) : Prop :=
  request_json e = Returned body
  /\ body <> JNull
  /\ truthy (prompt (bindings_of (props_of body))) = true.

(** The loop body's two inner steps as functions on the state.  [add_one]
    is lines 147-154 and 168-175 for a name already trimmed: a name not
    yet in the array is pushed and announced. *)
Definition add_one (s : state) (pkg : jsstring) : state :=
  if array_includes (packagesToInstall s) pkg then s
  else
    set_written (written s ++ [PackageEvent pkg (package_message pkg)])
      (set_packagesToInstall (packagesToInstall s ++ [pkg]) s).

Definition add_all (l : list jsstring) (s : state) : state :=
  fold_left add_one l s.

(** The names a scan of [searchText] offers, in the order the two loops
    meet them: the trimmed, non-empty groups of the [<package>] matches,
    then the names of the [<packages>] blocks. *)
Definition candidates (searchText : jsstring) : list jsstring :=
  filter (fun n => negb (str_eqb n []))
    (map trim (exec_all match_package 0 searchText))
  ++ flat_map (fun group => packagesList (trim group))
       (exec_all match_packages 0 searchText).

(** The state after one pass of the loop body. *)
Definition scanned (chunk : jsstring) (s : state) : state :=
  set_tagBuffer (slice_last 100 (tagBuffer s ++ chunk))
    (add_all (candidates (tagBuffer s ++ chunk))
       (set_written (written s ++ [TextEvent chunk])
          (set_fullResponse (fullResponse s ++ chunk) s))).

(** The last event of a request: [complete] when the stream ran dry,
    [error] when it threw. *)
Definition terminal_event (f : option thrown) (s : state) : event :=
  match f with
  | None =>
      CompleteEvent (fullResponse s) (packagesToInstall s)
        (complete_message (fullResponse s) (packagesToInstall s))
  | Some err => ErrorEvent (message_of err)
  end.

(** A well-formed package tag. *)
Definition package_tag (name : jsstring) : jsstring :=
  js "<package>" ++ name ++ js "</package>".

(** The events of a stream, chunk by chunk: the text event of the chunk,
    then the package events for the names [found] in it. *)
Definition framed (l : list jsstring) (found : list (list jsstring))
    : list event :=
  flat_map (fun cf => TextEvent (fst cf) :: map package_event (snd cf))
    (combine l found).


(** A request whose body cannot be read. *)
Definition unreadable : env :=
  {| request_json := Threw (JsError (js "Unexpected end of JSON input"));
     stream_text := no_stream |}.

(** A request whose stream yields two chunks and runs dry. *)
Definition answered : env :=
  request hello
    (Returned {| chunks := [js "Use <package>zod"; js "</package> here"];
                 failure := None |}).

(** Runs the closure on a concrete stream, whatever the conversation state
    and the clock. *)
Ltac run_relay :=
  intros;
  match goal with
  | cs : option ConversationState |- _ => destruct cs
  end;
  vm_compute; reflexivity.

(** ** Strings and arrays: basic facts *)

Lemma str_eqb_eq (a b : jsstring) : str_eqb a b = true <-> a = b.
Proof.
  revert b; induction a as [|x a IH]; intros [|y b]; simpl;
    try (split; [discriminate | congruence]); try tauto.
  rewrite andb_true_iff, N.eqb_eq, IH. split.
  - intros [-> ->]; reflexivity.
  - intros H; injection H; auto.
Qed.

Lemma array_includes_false (arr : list jsstring) (x : jsstring) :
  array_includes arr x = false -> ~ In x arr.
Proof.
  unfold array_includes. intros H Hin.
  assert (existsb (str_eqb x) arr = true) as E.
  { apply existsb_exists. exists x. split; [assumption|].
    apply str_eqb_eq; reflexivity. }
  congruence.
Qed.

Lemma NoDup_snoc (l : list jsstring) (x : jsstring) :
  NoDup l -> ~ In x l -> NoDup (l ++ [x]).
Proof.
  intros Hl Hx. apply NoDup_app; [assumption | repeat constructor; auto | ].
  intros y Hy [<- | []]. exact (Hx Hy).
Qed.

Lemma startsWith_app (p rest : jsstring) : startsWith (p ++ rest) p = true.
Proof.
  induction p as [|c p IH]; simpl; [reflexivity|].
  now rewrite N.eqb_refl, IH.
Qed.

(** The strings that start with [p] are the strings [p ++ name]. *)
Lemma startsWith_iff (s p : jsstring) :
  startsWith s p = true <-> exists name, s = p ++ name.
Proof.
  split.
  - revert s. induction p as [|c p IH]; intros s H.
    + exists s. reflexivity.
    + destruct s as [|x s]; [discriminate|]. simpl in H.
      apply andb_true_iff in H. destruct H as [Hx Hs].
      apply N.eqb_eq in Hx. subst x.
      destruct (IH s Hs) as [name ->]. exists name. reflexivity.
  - intros [name ->]. apply startsWith_app.
Qed.

Lemma split_from_pieces (in_sep : bool) (cur s : jsstring) :
  Forall (fun c => is_separator c = false) cur ->
  Forall (Forall (fun c => is_separator c = false)) (split_from in_sep cur s).
Proof.
  revert in_sep cur. induction s as [|c s IH]; intros in_sep cur Hcur.
  - repeat constructor. assumption.
  - cbn [split_from]. destruct (is_separator c) eqn:E.
    + destruct in_sep; [apply IH; assumption|].
      constructor; [assumption | apply IH; constructor].
    + apply IH. apply Forall_app. split; [assumption|].
      repeat constructor. assumption.
Qed.

Lemma replace_prefix (p rest : jsstring) : replace (p ++ rest) p [] = rest.
Proof.
  destruct p as [|c p].
  - destruct rest; reflexivity.
  - pose proof (startsWith_app (c :: p) rest) as H.
    change (replace ((c :: p) ++ rest) (c :: p) [])
      with (if startsWith ((c :: p) ++ rest) (c :: p)
            then skipn (length (c :: p)) ((c :: p) ++ rest)
            else c :: replace (p ++ rest) (c :: p) []).
    rewrite H, skipn_app, skipn_all, Nat.sub_diag. reflexivity.
Qed.

Lemma length_slice_last (n : nat) (s : jsstring) :
  length (slice_last n s) = Nat.min n (length s).
Proof. unfold slice_last. rewrite length_skipn. lia. Qed.

Lemma slice_last_suffix (n : nat) (s : jsstring) :
  firstn (length s - n) s ++ slice_last n s = s.
Proof. apply firstn_skipn. Qed.

Lemma slice_last_app (n : nat) (a c : jsstring) :
  slice_last n (slice_last n a ++ c) = slice_last n (a ++ c).
Proof.
  unfold slice_last.
  rewrite !skipn_app, skipn_skipn, !length_app, length_skipn.
  f_equal; f_equal; lia.
Qed.

(** ** The relay loop, step by step *)

Lemma announced_nil (s : state) : announced [] s s.
Proof. constructor; simpl; rewrite ?app_nil_r; auto. Qed.

Lemma announced_trans (n1 n2 : list jsstring) (s s1 s2 : state) :
  announced n1 s s1 -> announced n2 s1 s2 -> announced (n1 ++ n2) s s2.
Proof.
  intros [] []. constructor; try congruence; auto.
  - rewrite map_app, app_assoc. congruence.
  - rewrite app_assoc. congruence.
Qed.

Lemma announced_new (x : jsstring) (s : state) :
  array_includes (packagesToInstall s) x = false ->
  announced [x] s
    (set_written (written s ++ [package_event x])
       (set_packagesToInstall (packagesToInstall s ++ [x]) s)).
Proof.
  intros H. constructor; simpl; auto.
  intros Hnd. apply NoDup_snoc; [assumption|].
  now apply array_includes_false.
Qed.

Lemma for_each_announces {A} (body : A -> M unit) :
  announces body -> announces (fun l => for_each l body).
Proof.
  intros Hb l. induction l as [|x l IH]; intros s.
  - exists [], s. split; [reflexivity | apply announced_nil].
  - destruct (Hb x s) as (n1 & s1 & E1 & A1).
    destruct (IH s1) as (n2 & s2 & E2 & A2).
    exists (n1 ++ n2), s2. split.
    + cbn [for_each]. unfold bind. now rewrite E1.
    + eapply announced_trans; eassumption.
Qed.

Lemma process_chunk_step (chunk : jsstring) (s : state) :
  exists names s',
    process_chunk chunk s = (Returned tt, s') /\ chunk_step chunk names s s'.
Proof.
  unfold process_chunk, bind at 1 2 3.
  cbn [modify sendProgress gets].
  set (s1 := set_written _ _).
  match goal with
  | |- context [bind (for_each ?l ?b) _] =>
      assert (announces b) as Hb
  end.
  { intros group s0. unfold bind, gets.
    destruct (negb (str_eqb (trim group) [])); cbn [andb];
      [ destruct (array_includes (packagesToInstall s0) (trim group)) eqn:E;
        cbn [negb] | ].
    - exists [], s0. split; [reflexivity | apply announced_nil].
    - eexists [_], _. split; [reflexivity | exact (announced_new _ s0 E)].
    - exists [], s0. split; [reflexivity | apply announced_nil]. }
  match goal with
  | |- context [bind (for_each ?l ?b) _] =>
      destruct (for_each_announces b Hb l s1) as (n1 & s2 & E1 & A1)
  end.
  unfold bind at 1. rewrite E1.
  match goal with
  | |- context [bind (for_each ?l ?b) _] =>
      assert (announces b) as Hb'
  end.
  { intros group. apply for_each_announces.
    intros pkg s0. unfold bind, gets.
    destruct (array_includes (packagesToInstall s0) pkg) eqn:E; cbn [negb].
    - exists [], s0. split; [reflexivity | apply announced_nil].
    - eexists [_], _. split; [reflexivity | exact (announced_new _ s0 E)]. }
  match goal with
  | |- context [bind (for_each ?l ?b) _] =>
      destruct (for_each_announces b Hb' l s2) as (n2 & s3 & E2 & A2)
  end.
  unfold bind at 1. rewrite E2. cbn [modify].
  exists (n1 ++ n2), (set_tagBuffer (slice_last 100 (tagBuffer s ++ chunk)) s3).
  split; [reflexivity|].
  pose proof (announced_trans _ _ _ _ _ A1 A2) as [].
  subst s1. simpl in *.
  constructor; simpl; try congruence; auto.
  rewrite ann_written0, <- app_assoc. reflexivity.
Qed.

Lemma state_eta (s : state) :
  s = {| conversationState := conversationState s; clock := clock s;
         ticks := ticks s; calls := calls s; written := written s;
         closed := closed s; packagesToInstall := packagesToInstall s;
         tagBuffer := tagBuffer s; fullResponse := fullResponse s |}.
Proof. destruct s; reflexivity. Qed.

Lemma text_contents_app (a b : list event) :
  text_contents (a ++ b) = text_contents a ++ text_contents b.
Proof. apply flat_map_app. Qed.

Lemma package_names_app (a b : list event) :
  package_names (a ++ b) = package_names a ++ package_names b.
Proof. apply flat_map_app. Qed.

Lemma error_events_app (a b : list event) :
  error_events (a ++ b) = error_events a ++ error_events b.
Proof. apply flat_map_app. Qed.

Lemma text_contents_packages (names : list jsstring) :
  text_contents (map package_event names) = [].
Proof. induction names; simpl; auto. Qed.

Lemma package_names_packages (names : list jsstring) :
  package_names (map package_event names) = names.
Proof. induction names; simpl; congruence. Qed.

Lemma error_events_relayed (evs : list event) :
  Forall (fun e => is_terminal e = false) evs -> error_events evs = [].
Proof.
  induction 1 as [|e evs He _ IH]; [reflexivity|].
  destruct e; simpl in *; try discriminate; assumption.
Qed.

(** The whole loop over the chunks of a stream. *)
Lemma loop_run (l : list jsstring) (s : state) :
  exists evs names,
    for_each l process_chunk s =
      (Returned tt,
       {| conversationState := conversationState s; clock := clock s;
          ticks := ticks s; calls := calls s;
          written := written s ++ evs; closed := closed s;
          packagesToInstall := packagesToInstall s ++ names;
          tagBuffer := roll (tagBuffer s) l;
          fullResponse := fullResponse s ++ concat l |})
    /\ text_contents evs = l
    /\ package_names evs = names
    /\ Forall (fun e => is_terminal e = false) evs
    /\ (NoDup (packagesToInstall s) -> NoDup (packagesToInstall s ++ names)).
Proof.
  revert s. induction l as [|c l IH]; intros s.
  - exists [], []. simpl. rewrite !app_nil_r.
    repeat split; auto. unfold ret. f_equal. apply state_eta.
  - destruct (process_chunk_step c s) as (n1 & s1 & E1 & []).
    destruct (IH s1) as (evs & n2 & E2 & Ht & Hp & Hf & Hn).
    exists (TextEvent c :: map package_event n1 ++ evs), (n1 ++ n2).
    split; [|split; [|split; [|split]]].
    + cbn [for_each]. unfold bind. rewrite E1, E2. f_equal.
      rewrite step_conversationState0, step_clock0, step_ticks0, step_calls0,
        step_closed0, step_written0, step_packages0, step_tagBuffer0,
        step_fullResponse0.
      simpl. rewrite <- !app_assoc. reflexivity.
    + simpl. rewrite text_contents_app, text_contents_packages, Ht.
      reflexivity.
    + simpl. rewrite package_names_app, package_names_packages, Hp.
      reflexivity.
    + constructor; [reflexivity|]. apply Forall_app. split; [|assumption].
      apply Forall_forall. intros e He. apply in_map_iff in He.
      destruct He as (x & <- & _). reflexivity.
    + intros Hnd. rewrite app_assoc, <- step_packages0. auto.
Qed.

Lemma roll_slice (b : jsstring) (l : list jsstring) :
  length b <= 100 -> roll b l = slice_last 100 (b ++ concat l).
Proof.
  revert b. induction l as [|c l IH]; intros b Hb.
  - cbn [roll fold_left concat]. rewrite app_nil_r. unfold slice_last.
    replace (length b - 100) with 0 by lia. reflexivity.
  - change (roll b (c :: l)) with (roll (slice_last 100 (b ++ c)) l).
    rewrite IH by (rewrite length_slice_last; lia).
    cbn [concat]. rewrite slice_last_app, app_assoc. reflexivity.
Qed.

(** The closure on a stream that runs dry. *)
Lemma relay_exhausted (prompt isEdit : value) (l : list jsstring)
    (cs : option ConversationState) (clk : nat -> Z) (n : nat)
    (cl : list call) :
  exists evs names,
    relay prompt isEdit {| chunks := l; failure := None |}
      (opened cs clk n cl) =
      (Returned tt,
       {| conversationState :=
            match cs with
            | None => None
            | Some c =>
                Some
                  {| conv_context :=
                       {| messages :=
                            messages (conv_context c)
                            ++ [user_message prompt isEdit names
                                  (clk n) (clk (1 + n))]
                            ++ [assistant_message (concat l) names
                                  (clk (2 + n)) (clk (3 + n))];
                          context_rest := context_rest (conv_context c) |};
                     lastUpdated := clk (4 + n);
                     state_rest := state_rest c |}
            end;
          clock := clk;
          ticks := match cs with None => n | Some _ => 5 + n end;
          calls := cl;
          written :=
            evs ++ [CompleteEvent (concat l) names
                      (complete_message (concat l) names)];
          closed := true;
          packagesToInstall := names;
          tagBuffer := roll [] l;
          fullResponse := concat l |})
    /\ text_contents evs = l
    /\ package_names evs = names
    /\ Forall (fun e => is_terminal e = false) evs
    /\ NoDup names.
Proof.
  destruct (loop_run l (set_fullResponse [] (opened cs clk n cl)))
    as (evs & names & E & Ht & Hp & Hf & Hn).
  exists evs, names. repeat split; auto.
  - unfold relay, try_catch_finally, for_await, bind at 1 2 3.
    cbn [modify failure chunks]. rewrite E.
    destruct cs as [c|]; simpl; rewrite <- ?app_assoc; reflexivity.
  - apply Hn. constructor.
Qed.

(** The closure on a stream that throws [e] after the chunks [l]. *)
Lemma relay_failed (prompt isEdit : value) (l : list jsstring) (e : thrown)
    (cs : option ConversationState) (clk : nat -> Z) (n : nat)
    (cl : list call) :
  exists evs names,
    relay prompt isEdit {| chunks := l; failure := Some e |}
      (opened cs clk n cl) =
      (Returned tt,
       {| conversationState := cs; clock := clk; ticks := n; calls := cl;
          written := evs ++ [ErrorEvent (message_of e)];
          closed := true;
          packagesToInstall := names;
          tagBuffer := roll [] l;
          fullResponse := concat l |})
    /\ text_contents evs = l
    /\ package_names evs = names
    /\ Forall (fun e => is_terminal e = false) evs
    /\ NoDup names.
Proof.
  destruct (loop_run l (set_fullResponse [] (opened cs clk n cl)))
    as (evs & names & E & Ht & Hp & Hf & Hn).
  exists evs, names. repeat split; auto.
  - unfold relay, try_catch_finally, for_await, bind at 1 2 3.
    cbn [modify failure chunks]. rewrite E. reflexivity.
  - apply Hn. constructor.
Qed.

(** ** The handler up to the stream *)

(** A request that passes validation and whose model call returns a stream:
    the handler answers with the event stream, and the closure runs from
    the state [opened]. *)
Lemma POST_streams (e : env) (props : list (jsstring * json))
    (m sp : jsstring) (st : textStream) (s : state) :
  let b := bindings_of props in
  request_json e = Returned (JObj props) ->
  truthy (prompt b) = true ->
  model b = Some (JStr m) ->
  (forall s0,
     build_system_prompt (systemPrompt b) (fileContents b) s0
     = (Returned sp, s0)) ->
  stream_text e = Returned st ->
  POST e s =
    (Returned EventStream,
     run (relay (prompt b) (isEdit b) st)
       (opened (conversationState s) (clock s) (ticks s)
          (calls s
           ++ [ProviderCall (selectModel m);
               StreamTextCall (selectModel m) sp (prompt b) (temperature b)
                 8000;
               NewTransformStream]))).
Proof.
  intros b Hj Hp Hm Hs Ht.
  unfold POST, try_catch, bind at 1, await. rewrite Hj.
  unfold bind at 1. cbn [destructure ret props_of]. fold b. rewrite Hp.
  cbn [negb]. unfold bind at 1. rewrite Hm.
  unfold select, bind at 1 2. cbn [record_call modify ret].
  rewrite Hs. unfold bind, new_stream, record_call, modify, detached, ret, bind.
  rewrite Ht. cbn [snd fst]. unfold run, opened, set_calls. simpl.
  rewrite <- !app_assoc. reflexivity.
Qed.

(** The same request when the model call throws: the outer [catch] answers
    500 with the message, and no stream was opened. *)
Lemma POST_model_call_throws (e : env) (props : list (jsstring * json))
    (m sp : jsstring) (err : thrown) (s : state) :
  let b := bindings_of props in
  request_json e = Returned (JObj props) ->
  truthy (prompt b) = true ->
  model b = Some (JStr m) ->
  (forall s0,
     build_system_prompt (systemPrompt b) (fileContents b) s0
     = (Returned sp, s0)) ->
  stream_text e = Threw err ->
  POST e s =
    (Returned
       (JsonResponse 500
          match err with
          | JsError msg => msg
          | NonError => js "Failed to generate code"
          end),
     set_calls
       (calls s
        ++ [ProviderCall (selectModel m);
            StreamTextCall (selectModel m) sp (prompt b) (temperature b)
              8000])
       (set_tagBuffer [] (set_packagesToInstall [] s))).
Proof.
  intros b Hj Hp Hm Hs Ht.
  unfold POST, try_catch, bind at 1, await. rewrite Hj.
  unfold bind at 1. cbn [destructure ret props_of]. fold b. rewrite Hp.
  cbn [negb]. unfold bind at 1. rewrite Hm.
  unfold select, bind at 1 2. cbn [record_call modify ret].
  rewrite Hs. unfold bind, new_stream, record_call, modify, detached, ret, bind.
  rewrite Ht. unfold set_calls. simpl.
  rewrite <- !app_assoc. reflexivity.
Qed.

(** ** The claims *)

(** C1.  The model selector routes by prefix (an identifier that starts
    with [p] is [p ++ name], see [startsWith_iff]): [anthropic/<name>] goes to the
    anthropic client with [<name>]; [openai/<name>] goes to the groq client
    with the whole identifier when the identifier contains [gpt-oss], and
    to the openai client with [<name>] otherwise; [cerebras/<name>] goes to
    the cerebras client with [<name>]; any other identifier goes to the
    cerebras client as it is.  The five identifiers of the specification
    route to anthropic, openai, groq, cerebras and cerebras. *)
Theorem selectModel_routes :
  (forall name, selectModel (js "anthropic/" ++ name) = anthropic name)
  /\ (forall name,
        includes (js "openai/" ++ name) (js "gpt-oss") = true ->
        selectModel (js "openai/" ++ name) = groq (js "openai/" ++ name))
  /\ (forall name,
        includes (js "openai/" ++ name) (js "gpt-oss") = false ->
        selectModel (js "openai/" ++ name) = openai name)
  /\ (forall name, selectModel (js "cerebras/" ++ name) = cerebras name)
  /\ (forall model,
        startsWith model (js "anthropic/") = false ->
        startsWith model (js "openai/") = false ->
        startsWith model (js "cerebras/") = false ->
        selectModel model = cerebras model)
  /\ selectModel (js "anthropic/claude-x") = anthropic (js "claude-x")
  /\ selectModel (js "openai/gpt-4") = openai (js "gpt-4")
  /\ selectModel (js "openai/gpt-oss-20b") = groq (js "openai/gpt-oss-20b")
  /\ selectModel (js "cerebras/foo") = cerebras (js "foo")
  /\ selectModel (js "unknown-id") = cerebras (js "unknown-id").
Proof.
  split; [|split; [|split; [|split; [|split; [|repeat split]]]]].
  - intros name. unfold selectModel.
    now rewrite startsWith_app, replace_prefix.
  - intros name H. unfold selectModel.
    change (startsWith (js "openai/" ++ name) (js "anthropic/")) with false.
    cbv iota. now rewrite startsWith_app, H.
  - intros name H. unfold selectModel.
    change (startsWith (js "openai/" ++ name) (js "anthropic/")) with false.
    cbv iota. now rewrite startsWith_app, H, replace_prefix.
  - intros name. unfold selectModel.
    change (startsWith (js "cerebras/" ++ name) (js "anthropic/")) with false.
    change (startsWith (js "cerebras/" ++ name) (js "openai/")) with false.
    cbv iota. now rewrite startsWith_app, replace_prefix.
  - intros model Ha Ho Hc. unfold selectModel. now rewrite Ha, Ho, Hc.
Qed.


(** The default temperature is the binary64 value nearest to 7/10: it is
    [m * 2^-53] with [|7/10 - m * 2^-53| <= 2^-54]. *)
Lemma default_temperature_nearest :
  default_temperature = S754_finite false 6305039478318694 (-53)
  /\ (2 * Z.abs (7 * 2 ^ 53 - 10 * 6305039478318694) <= 10)%Z.
Proof. split; [reflexivity | vm_compute; discriminate]. Qed.

(** A [null] body has no property to read: the destructuring throws and the
    outer [catch] answers 500. *)
Lemma POST_null_body (e : env) (s : state) :
  request_json e = Returned JNull ->
  POST e s
  = (Returned (JsonResponse 500 (engine_message DestructureNull)), s).
Proof.
  intros Hj. unfold POST, try_catch, bind at 1, await. rewrite Hj.
  reflexivity.
Qed.

(** C3.  On a stream that yields the chunks [l] and runs dry, the last event
    written is the [complete] event, its [response] is the concatenation,
    in the order written, of the contents of all the [text] events, and
    those are the chunks, one event each. *)
Theorem complete_response_is_concatenation (prompt isEdit : value)
    (l : list jsstring) (cs : option ConversationState) (clk : nat -> Z)
    (n : nat) (cl : list call) :
  let s' := run (relay prompt isEdit {| chunks := l; failure := None |})
              (opened cs clk n cl) in
  exists evs response pkgs msg,
    written s' = evs ++ [CompleteEvent response pkgs msg]
    /\ Forall (fun e => is_terminal e = false) evs
    /\ response = concat (text_contents (written s'))
    /\ text_contents (written s') = l.
Proof.
  destruct (relay_exhausted prompt isEdit l cs clk n cl)
    as (evs & names & E & Ht & Hp & Hf & Hn).
  unfold run. rewrite E. cbn [snd written].
  exists evs, (concat l), names, (complete_message (concat l) names).
  rewrite text_contents_app, Ht. cbn. rewrite app_nil_r. auto.
Qed.

Lemma announced_packages_NoDup (prompt isEdit : value) (st : textStream)
    (cs : option ConversationState) (clk : nat -> Z) (n : nat)
    (cl : list call) :
  NoDup (announced_packages prompt isEdit st cs clk n cl).
Proof.
  unfold announced_packages, run. destruct st as [l [e|]].
  - destruct (relay_failed prompt isEdit l e cs clk n cl)
      as (evs & names & E & _ & Hp & _ & Hn).
    rewrite E. cbn [snd written].
    rewrite package_names_app, Hp. cbn. now rewrite app_nil_r.
  - destruct (relay_exhausted prompt isEdit l cs clk n cl)
      as (evs & names & E & _ & Hp & _ & Hn).
    rewrite E. cbn [snd written].
    rewrite package_names_app, Hp. cbn. now rewrite app_nil_r.
Qed.

(** C4.  For the chunks ["<pack"] and ["age>left-pad</package> ok"] exactly
    one [package] event is written, for [left-pad], also when the tag comes
    again in a later chunk; and for every stream, whether it runs dry or
    throws, no two [package] events of a request carry the same name. *)
Theorem package_announced_once :
  (forall prompt isEdit cs clk n cl,
     announced_packages prompt isEdit
       {| chunks := [js "<pack"; js "age>left-pad</package> ok"];
          failure := None |} cs clk n cl
     = [js "left-pad"])
  /\ (forall prompt isEdit cs clk n cl,
        announced_packages prompt isEdit
          {| chunks := [js "<pack"; js "age>left-pad</package> ok";
                        js "then <package>left-pad</package> again"];
             failure := None |} cs clk n cl
        = [js "left-pad"])
  /\ (forall prompt isEdit st cs clk n cl,
        NoDup (announced_packages prompt isEdit st cs clk n cl)).
Proof.
  split; [|split].
  - run_relay.
  - run_relay.
  - intros. apply announced_packages_NoDup.
Qed.

(** C5.  The body of a [<packages>] block is split on commas and line
    feeds (no piece holds one), each piece is trimmed and the empty ones
    are dropped.  For the block [<packages>react, lodash\nmoment</packages>]
    that leaves react, lodash, moment; a chunk holding the
    block makes the request write three [package] events, for react, lodash
    and moment in that order, and still those three, once each, when the
    block comes again in the same chunk or in a later one. *)
Theorem packages_block_announced :
  (forall body piece c,
     In piece (split body) -> In c piece -> c <> 10%N /\ c <> 44%N)
  /\ (forall body pkg,
        In pkg (packagesList body) <->
        pkg <> [] /\ exists piece, In piece (split body) /\ pkg = trim piece)
  /\ exec_all match_packages 0 packages_block
     = [js "react, lodash" ++ [10%N] ++ js "moment"]
  /\ split (js "react, lodash" ++ [10%N] ++ js "moment")
     = [js "react"; js " lodash"; js "moment"]
  /\ packagesList (trim (js "react, lodash" ++ [10%N] ++ js "moment"))
     = [js "react"; js "lodash"; js "moment"]
  /\ (forall prompt isEdit cs clk n cl,
        announced_packages prompt isEdit
          {| chunks := [packages_block]; failure := None |} cs clk n cl
        = [js "react"; js "lodash"; js "moment"])
  /\ (forall prompt isEdit cs clk n cl,
        announced_packages prompt isEdit
          {| chunks := [js "Installing " ++ packages_block ++ js " first."];
             failure := None |} cs clk n cl
        = [js "react"; js "lodash"; js "moment"])
  /\ (forall prompt isEdit cs clk n cl,
        announced_packages prompt isEdit
          {| chunks := [packages_block; packages_block]; failure := None |}
          cs clk n cl
        = [js "react"; js "lodash"; js "moment"])
  /\ (forall prompt isEdit cs clk n cl,
        announced_packages prompt isEdit
          {| chunks := [packages_block ++ packages_block];
             failure := None |} cs clk n cl
        = [js "react"; js "lodash"; js "moment"]).
Proof.
  split; [|split; [|split; [|split; [|split; [|split; [|split; [|split]]]]]]];
    try (vm_compute; reflexivity); try run_relay.
  - intros body piece c Hp Hc.
    pose proof (split_from_pieces false [] body (Forall_nil _)) as H.
    rewrite Forall_forall in H. specialize (H piece Hp).
    rewrite Forall_forall in H. specialize (H c Hc).
    unfold is_separator in H. apply orb_false_iff in H.
    destruct H as [H1 H2]. apply N.eqb_neq in H1, H2. auto.
  - intros body pkg. unfold packagesList.
    rewrite filter_In, in_map_iff. split.
    + intros [(piece & <- & Hin) Hlen]. split.
      * intros E. rewrite E in Hlen. discriminate.
      * exists piece. auto.
    + intros [Hne (piece & Hin & ->)]. split; [exists piece; auto|].
      destruct (trim piece); [congruence | reflexivity].
Qed.

(** C6.  Each pass of the loop body leaves in the tag buffer the last 100
    code units of the text it scanned, the buffer before it followed by the
    chunk, or all of that text when it is shorter; so after every chunk of
    every stream the buffer is at most 100 long. *)
Theorem tag_buffer_bound :
  (forall chunk (s : state),
     let searchText := tagBuffer s ++ chunk in
     let s' := run (process_chunk chunk) s in
     tagBuffer s' = slice_last 100 searchText
     /\ firstn (length searchText - 100) searchText ++ tagBuffer s'
        = searchText
     /\ length (tagBuffer s') = Nat.min 100 (length searchText)
     /\ length (tagBuffer s') <= 100)
  /\ (forall (l : list jsstring) (k : nat) cs clk n cl,
        let s' := run (for_each (firstn k l) process_chunk)
                    (opened cs clk n cl) in
        tagBuffer s' = slice_last 100 (concat (firstn k l))
        /\ length (tagBuffer s') <= 100).
Proof.
  split.
  - intros chunk s searchText s'.
    destruct (process_chunk_step chunk s) as (names & s1 & E & []).
    subst s'. unfold run. rewrite E. cbn [snd].
    rewrite step_tagBuffer0. fold searchText.
    repeat split.
    + apply slice_last_suffix.
    + apply length_slice_last.
    + rewrite length_slice_last. lia.
  - intros l k cs clk n cl s'.
    destruct (loop_run (firstn k l) (opened cs clk n cl))
      as (evs & names & E & _).
    subst s'. unfold run. rewrite E. cbn [snd tagBuffer opened].
    rewrite roll_slice by (simpl; lia). cbn [app].
    split; [reflexivity|]. rewrite length_slice_last. lia.
Qed.


(** C8, as the code has it.  An error thrown while the stream is iterated
    makes the closure write one [error] event, with the error's message,
    as its last event, and close the writer.  An error thrown by the model
    call itself is caught by the outer handler: the answer is status 500
    with the message in a JSON body, no stream was opened and nothing was
    written.  On every way out of the closure the writer is closed. *)
Theorem stream_error_is_reported :
  (forall prompt isEdit l err cs clk n cl,
     let s' := run (relay prompt isEdit
                      {| chunks := l; failure := Some err |})
                 (opened cs clk n cl) in
     exists evs,
       written s' = evs ++ [ErrorEvent (message_of err)]
       /\ Forall (fun e => is_terminal e = false) evs
       /\ error_events (written s') = [message_of err]
       /\ closed s' = true)
  /\ (forall (e : env) props m sp err (s : state),
        let b := bindings_of props in
        request_json e = Returned (JObj props) ->
        truthy (prompt b) = true ->
        model b = Some (JStr m) ->
        (forall s0,
           build_system_prompt (systemPrompt b) (fileContents b) s0
           = (Returned sp, s0)) ->
        stream_text e = Threw err ->
        fst (POST e s)
        = Returned
            (JsonResponse 500
               match err with
               | JsError msg => msg
               | NonError => js "Failed to generate code"
               end)
        /\ calls (run (POST e) s)
           = calls s
             ++ [ProviderCall (selectModel m);
                 StreamTextCall (selectModel m) sp (prompt b)
                   (temperature b) 8000]
        /\ written (run (POST e) s) = written s
        /\ closed (run (POST e) s) = closed s
        /\ conversationState (run (POST e) s) = conversationState s)
  /\ (forall prompt isEdit st cs clk n cl,
        closed (run (relay prompt isEdit st) (opened cs clk n cl)) = true).
Proof.
  split; [|split].
  - intros prompt isEdit l err cs clk n cl s'.
    destruct (relay_failed prompt isEdit l err cs clk n cl)
      as (evs & names & E & _ & _ & Hf & _).
    subst s'. unfold run. rewrite E. cbn [snd written closed].
    exists evs. repeat split; auto.
    rewrite error_events_app, (error_events_relayed evs Hf). reflexivity.
  - intros e props m sp err s b Hj Hp Hm Hs Ht.
    unfold run.
    rewrite (POST_model_call_throws e props m sp err s Hj Hp Hm Hs Ht).
    repeat split.
  - intros prompt isEdit [l [err|]] cs clk n cl; unfold run.
    + destruct (relay_failed prompt isEdit l err cs clk n cl)
        as (evs & names & E & _).
      now rewrite E.
    + destruct (relay_exhausted prompt isEdit l cs clk n cl)
        as (evs & names & E & _).
      now rewrite E.
Qed.

(** C9.  A well-formed package tag of 120 code units, cut 110 code units
    after its start: scanned in one piece its name is found and announced,
    but given as those two chunks it is beyond the reach of the 100 code
    units kept between chunks, and no [package] event is written. *)
Theorem long_split_tag_is_missed :
  exists first second name : jsstring,
    first ++ second = js "<package>" ++ name ++ js "</package>"
    /\ first = js "<package>" ++ name
    /\ 100 < length name
    /\ exec_all match_package 0 (first ++ second) = [name]
    /\ (forall prompt isEdit cs clk n cl,
          announced_packages prompt isEdit
            {| chunks := [first ++ second]; failure := None |} cs clk n cl
          = [name])
    /\ (forall prompt isEdit cs clk n cl,
          announced_packages prompt isEdit
            {| chunks := [first; second]; failure := None |} cs clk n cl
          = []).
Proof.
  exists (js "<package>" ++ repeat 97%N 101), (js "</package>"),
    (repeat 97%N 101).
  split; [|split; [|split; [|split; [|split]]]];
    try (vm_compute; reflexivity).
  - run_relay.
  - run_relay.
Qed.

(** C10.  When the stream throws, the conversation state is left as it was
    and the clock is not read: the closure ends with the [error] event and
    never reaches the appends; so whenever a request wrote an [error]
    event, the conversation state is the one it started with. *)
Theorem failed_stream_leaves_conversation_state :
  (forall prompt isEdit l err cs clk n cl,
     let s' := run (relay prompt isEdit
                      {| chunks := l; failure := Some err |})
                 (opened cs clk n cl) in
     conversationState s' = cs
     /\ ticks s' = n
     /\ exists evs, written s' = evs ++ [ErrorEvent (message_of err)])
  /\ (forall prompt isEdit st cs clk n cl,
        let s' := run (relay prompt isEdit st) (opened cs clk n cl) in
        error_events (written s') <> [] ->
        conversationState s' = cs /\ ticks s' = n).
Proof.
  split.
  - intros prompt isEdit l err cs clk n cl s'.
    destruct (relay_failed prompt isEdit l err cs clk n cl)
      as (evs & names & E & _).
    subst s'. unfold run. rewrite E. cbn [snd].
    split; [reflexivity | split; [reflexivity | exists evs; reflexivity]].
  - intros prompt isEdit [l [err|]] cs clk n cl s' H; subst s';
      unfold run in *.
    + destruct (relay_failed prompt isEdit l err cs clk n cl)
        as (evs & names & E & _).
      rewrite E. auto.
    + destruct (relay_exhausted prompt isEdit l cs clk n cl)
        as (evs & names & E & _ & _ & Hf & _).
      rewrite E in H. cbn [snd written] in H.
      rewrite error_events_app, (error_events_relayed evs Hf) in H.
      now contradiction H.
Qed.
(** ** More of the handler *)

Lemma build_system_prompt_eq (sp fc : value) (s : state) :
  build_system_prompt sp fc s = (composed_prompt sp fc, s).
Proof.
  unfold build_system_prompt, composed_prompt, bind, ToString, ret.
  destruct sp as [v|]; [destruct (truthy (Some v))|].
  - destruct v; try destruct (ToString_other _); try reflexivity;
      (destruct fc as [w|]; [destruct (truthy (Some w))|]; try reflexivity;
       destruct w; try destruct (ToString_other _); reflexivity).
  - destruct fc as [w|]; [destruct (truthy (Some w))|]; try reflexivity;
      destruct w; try destruct (ToString_other _); reflexivity.
  - destruct fc as [w|]; [destruct (truthy (Some w))|]; try reflexivity;
      destruct w; try destruct (ToString_other _); reflexivity.
Qed.

Lemma destructure_not_null (body : json) (s : state) :
  body <> JNull ->
  destructure body s = (Returned (bindings_of (props_of body)), s).
Proof. destruct body; [congruence | reflexivity..]. Qed.

(** The handler up to the model call, for a body that passes validation and
    names a model. *)
Lemma POST_to_model_call (e : env) (body : json) (m : jsstring) (s : state) :
  let b := bindings_of (props_of body) in
  request_json e = Returned body ->
  body <> JNull ->
  truthy (prompt b) = true ->
  model b = Some (JStr m) ->
  POST e s =
    match composed_prompt (systemPrompt b) (fileContents b) with
    | Threw err =>
        (Returned (JsonResponse 500 (failure_text err)),
         set_calls (calls s ++ [ProviderCall (selectModel m)]) s)
    | Returned sp =>
        match stream_text e with
        | Threw err =>
            (Returned (JsonResponse 500 (failure_text err)),
             set_calls
               (calls s
                ++ [ProviderCall (selectModel m);
                    StreamTextCall (selectModel m) sp (prompt b)
                      (temperature b) 8000])
               (set_tagBuffer [] (set_packagesToInstall [] s)))
        | Returned st =>
            (Returned EventStream,
             run (relay (prompt b) (isEdit b) st)
               (opened (conversationState s) (clock s) (ticks s)
                  (calls s ++ calls_of_stream m sp b)))
        end
    end.
Proof.
  intros b Hj Hn Hp Hm.
  unfold POST, try_catch, bind at 1, await. rewrite Hj.
  unfold bind at 1. rewrite (destructure_not_null body s Hn). fold b.
  rewrite Hp. cbn [negb]. unfold bind at 1. rewrite Hm.
  unfold select, bind at 1 2. cbn [record_call modify ret].
  unfold bind at 1. rewrite build_system_prompt_eq.
  destruct (composed_prompt (systemPrompt b) (fileContents b)) as [sp|err];
    [|reflexivity].
  unfold bind, new_stream, record_call, modify, detached, ret, bind.
  destruct (stream_text e) as [st|err].
  - cbn [snd fst]. unfold run, opened, set_calls, calls_of_stream. simpl.
    rewrite <- !app_assoc. reflexivity.
  - unfold set_calls. simpl. rewrite <- !app_assoc. reflexivity.
Qed.

(** The ways to a JSON answer that come before the model selector. *)
Lemma POST_early_answer (e : env) (s : state) :
  match request_json e with
  | Threw err => POST e s = (Returned (JsonResponse 500 (failure_text err)), s)
  | Returned JNull =>
      POST e s
      = (Returned (JsonResponse 500 (engine_message DestructureNull)), s)
  | Returned body =>
      let b := bindings_of (props_of body) in
      if truthy (prompt b) then
        match model b with
        | Some (JStr _) => True
        | _ =>
            POST e s
            = (Returned (JsonResponse 500 (engine_message StartsWithMissing)),
               s)
        end
      else
        POST e s
        = (Returned (JsonResponse 400 (js "prompt is required")), s)
  end.
Proof.
  destruct (request_json e) as [body|err] eqn:Hj.
  2:{ unfold POST, try_catch, bind at 1, await. now rewrite Hj. }
  destruct body;
    try (unfold POST, try_catch, bind at 1, await; now rewrite Hj);
    match goal with
    | |- context [bindings_of (props_of ?x)] =>
        set (b := bindings_of (props_of x))
    end;
    cbv zeta;
    (destruct (truthy (prompt b)) eqn:Hp;
     [destruct (model b) as [[]|] eqn:Hm; try exact I|]);
    unfold POST, try_catch, bind at 1, await; rewrite Hj;
    unfold bind at 1; cbn [destructure ret]; fold b; rewrite Hp;
    cbn [negb]; try reflexivity;
    unfold bind at 1, select; rewrite Hm; reflexivity.
Qed.

(** Every way through the handler: the 400 of a falsy prompt; a 500 from
    the outer [catch], before any stream is made; or the event stream, with
    the closure run from [opened]. *)
Lemma POST_paths (e : env) (s : state) :
  (exists body,
     request_json e = Returned body /\ body <> JNull
     /\ truthy (prompt (bindings_of (props_of body))) = false
     /\ POST e s = (Returned (JsonResponse 400 (js "prompt is required")), s))
  \/ (exists msg extra s',
        POST e s = (Returned (JsonResponse 500 msg), s')
        /\ untouched_but_calls extra s s'
        /\ ~ In NewTransformStream extra
        /\ forall body,
             request_json e = Returned body -> body <> JNull ->
             truthy (prompt (bindings_of (props_of body))) = true)
  \/ (exists body m sp st,
        let b := bindings_of (props_of body) in
        validated e body
        /\ model b = Some (JStr m)
        /\ composed_prompt (systemPrompt b) (fileContents b) = Returned sp
        /\ stream_text e = Returned st
        /\ POST e s
           = (Returned EventStream,
              run (relay (prompt b) (isEdit b) st)
                (opened (conversationState s) (clock s) (ticks s)
                   (calls s ++ calls_of_stream m sp b)))).
Proof.
  assert (forall msg,
            POST e s = (Returned (JsonResponse 500 msg), s) ->
            exists msg extra s',
              POST e s = (Returned (JsonResponse 500 msg), s')
              /\ untouched_but_calls extra s s'
              /\ ~ In NewTransformStream extra) as Same.
  { intros msg H. exists msg, [], s. unfold untouched_but_calls.
    rewrite app_nil_r. repeat split; auto. }
  pose proof (POST_early_answer e s) as Early.
  destruct (request_json e) as [body|err] eqn:Hj.
  2:{ right; left. destruct (Same _ Early) as (msg & extra & s' & H).
      exists msg, extra, s'. repeat split; try apply H. discriminate. }
  assert (body = JNull \/ body <> JNull) as [->|Hn]
    by (destruct body; auto; right; discriminate).
  { right; left. destruct (Same _ Early) as (msg & extra & s' & H).
    exists msg, extra, s'. repeat split; try apply H.
    intros body Hb. injection Hb as <-. congruence. }
  assert (let b := bindings_of (props_of body) in
          if truthy (prompt b) then
            match model b with
            | Some (JStr _) => True
            | _ =>
                POST e s
                = (Returned
                     (JsonResponse 500 (engine_message StartsWithMissing)), s)
            end
          else
            POST e s
            = (Returned (JsonResponse 400 (js "prompt is required")), s))
    as Early' by (destruct body; try exact Early; congruence).
  clear Early. cbv zeta in Early'.
  set (b := bindings_of (props_of body)) in *.
  destruct (truthy (prompt b)) eqn:Hp.
  2:{ left. exists body. auto. }
  assert (forall body',
            Returned body = Returned body' -> body' <> JNull ->
            truthy (prompt (bindings_of (props_of body'))) = true) as Hv.
  { intros body' Hb _. injection Hb as <-. exact Hp. }
  destruct (model b) as [mv|] eqn:Hm.
  2:{ right; left. destruct (Same _ Early') as (msg & extra & s' & H).
      exists msg, extra, s'. repeat split; try apply H. exact Hv. }
  assert ((exists m, mv = JStr m) \/ forall m, mv <> JStr m) as [[m ->]|Hns]
    by (destruct mv; try (right; discriminate); left; eauto).
  2:{ right; left.
      assert (POST e s
              = (Returned
                   (JsonResponse 500 (engine_message StartsWithMissing)), s))
        as H0 by (destruct mv; try exact Early'; exfalso; eapply Hns; eauto).
      destruct (Same _ H0) as (msg & extra & s' & H).
      exists msg, extra, s'. repeat split; try apply H. exact Hv. }
  pose proof (POST_to_model_call e body m s Hj Hn Hp Hm) as H.
  cbv zeta in H. fold b in H.
  destruct (composed_prompt (systemPrompt b) (fileContents b)) as [sp|err]
    eqn:Hc.
  2:{ right; left. do 3 eexists. split; [exact H|].
      unfold untouched_but_calls. simpl. repeat split; auto.
      intros [F|[]]; discriminate F. }
  destruct (stream_text e) as [st|err] eqn:Ht.
  - right; right. exists body, m, sp, st. cbv zeta. fold b.
    unfold validated. fold b. repeat split; auto.
  - right; left. do 3 eexists. split; [exact H|].
    unfold untouched_but_calls. simpl. repeat split; auto.
    intros [F|[F|[]]]; discriminate F.
Qed.

(** ** Further properties of the handler *)

(** X1.  The handler never rejects: whatever the body, the model call and
    the stream do, it returns a response, and a JSON response has status
    400 or 500. *)
Theorem handler_always_answers (e : env) (s : state) :
  exists r,
    fst (POST e s) = Returned r
    /\ match r with
       | EventStream => True
       | JsonResponse status _ => status = 400 \/ status = 500
       end.
Proof.
  destruct (POST_paths e s)
    as [(body & _ & _ & _ & H)
       |[(msg & extra & s' & H & _)|(body & m & sp & st & H)]].
  - rewrite H. eexists. split; [reflexivity|]. simpl. auto.
  - rewrite H. eexists. split; [reflexivity|]. simpl. auto.
  - cbv zeta in H. destruct H as (_ & _ & _ & _ & H). rewrite H.
    eexists. split; [reflexivity | exact I].
Qed.

(** X2.  A JSON answer means no stream: nothing was written, no writer was
    made or closed, the conversation state and the clock were not touched,
    and whatever calls were made, [new TransformStream()] is not among
    them. *)
Theorem json_answer_opens_no_stream (e : env) (s : state) (status : nat)
    (msg : jsstring) :
  fst (POST e s) = Returned (JsonResponse status msg) ->
  written (run (POST e) s) = written s
  /\ closed (run (POST e) s) = closed s
  /\ conversationState (run (POST e) s) = conversationState s
  /\ ticks (run (POST e) s) = ticks s
  /\ exists extra,
       calls (run (POST e) s) = calls s ++ extra
       /\ ~ In NewTransformStream extra.
Proof.
  intros Hr. unfold run.
  destruct (POST_paths e s)
    as [(body & _ & _ & _ & H)
       |[(msg' & extra & s' & H & Hu & Hn & _)|(body & m & sp & st & H)]].
  - rewrite H. cbn [snd]. repeat split; auto. exists [].
    rewrite app_nil_r. auto.
  - rewrite H. cbn [snd].
    destruct Hu as (Hc & Hw & Hcl & Hcs & _ & Ht).
    repeat split; auto. exists extra. auto.
  - cbv zeta in H. destruct H as (_ & _ & _ & _ & H).
    rewrite H in Hr. discriminate Hr.
Qed.

(** X3.  Status 400 is the answer exactly when the body was parsed, is not
    [null], and its [prompt] is absent or falsy; its error text is
    [prompt is required]. *)
Theorem status_400_exactly_for_falsy_prompt (e : env) (s : state)
    (msg : jsstring) :
  fst (POST e s) = Returned (JsonResponse 400 msg)
  <-> msg = js "prompt is required"
      /\ exists body,
           request_json e = Returned body /\ body <> JNull
           /\ truthy (lookup (js "prompt") (props_of body)) = false.
Proof.
  destruct (POST_paths e s)
    as [(body & Hj & Hn & Hp & H)
       |[(msg' & extra & s' & H & _ & _ & Hv)|(body & m & sp & st & H)]].
  - rewrite H. cbn [fst]. split.
    + intros E. injection E as <-. split; [reflexivity|].
      exists body. auto.
    + intros [-> _]. reflexivity.
  - rewrite H. cbn [fst]. split; [discriminate|].
    intros [_ (body & Hj & Hn & Hp)].
    specialize (Hv body Hj Hn). cbn [bindings_of prompt] in Hv. congruence.
  - cbv zeta in H. destruct H as ((Hj & Hn & Hp) & _ & _ & _ & H).
    rewrite H. cbn [fst]. split; [discriminate|].
    intros [_ (body' & Hj' & _ & Hp')].
    rewrite Hj in Hj'. injection Hj' as <-.
    cbn [bindings_of prompt] in Hp. congruence.
Qed.



(** X6.  When [request.json()] rejects, the answer is status 500 with the
    message of the error, or [Failed to generate code] when what was thrown
    is no [Error]; nothing else happened. *)
Theorem unreadable_body_is_500 (e : env) (s : state) :
  (forall m,
     request_json e = Threw (JsError m) ->
     POST e s = (Returned (JsonResponse 500 m), s))
  /\ (request_json e = Threw NonError ->
      POST e s
      = (Returned (JsonResponse 500 (js "Failed to generate code")), s)).
Proof.
  pose proof (POST_early_answer e s) as H.
  split; [intros m Hj | intros Hj]; rewrite Hj in H; exact H.
Qed.

(** X7.  A request that passes validation, names a model and whose model
    call returns a stream makes three calls, in this order: the provider
    client the selector chose, [streamText] with that model, the composed
    system prompt, the prompt, the temperature and 8000 tokens at most, and
    [new TransformStream()]; the answer is the event stream. *)
Theorem accepted_request_calls (e : env) (body : json) (m sp : jsstring)
    (st : textStream) (s : state) :
  let b := bindings_of (props_of body) in
  validated e body ->
  model b = Some (JStr m) ->
  fst (build_system_prompt (systemPrompt b) (fileContents b) s)
  = Returned sp ->
  stream_text e = Returned st ->
  fst (POST e s) = Returned EventStream
  /\ calls (run (POST e) s)
     = calls s
       ++ [ProviderCall (selectModel m);
           StreamTextCall (selectModel m) sp (prompt b) (temperature b) 8000;
           NewTransformStream].
Proof.
  intros b (Hj & Hn & Hp) Hm Hs Ht.
  rewrite build_system_prompt_eq in Hs. cbn [fst] in Hs.
  pose proof (POST_to_model_call e body m s Hj Hn Hp Hm) as H.
  cbv zeta in H. fold b in H. rewrite Hs, Ht in H.
  unfold run. rewrite H. cbn [fst snd]. split; [reflexivity|].
  unfold run. destruct st as [l [err|]].
  - destruct (relay_failed (prompt b) (isEdit b) l err
                (conversationState s) (clock s) (ticks s)
                (calls s ++ calls_of_stream m sp b))
      as (evs & names & E & _).
    rewrite E. reflexivity.
  - destruct (relay_exhausted (prompt b) (isEdit b) l
                (conversationState s) (clock s) (ticks s)
                (calls s ++ calls_of_stream m sp b))
      as (evs & names & E & _).
    rewrite E. reflexivity.
Qed.

(** X8.  The system prompt.  With a caller's text and file contents that
    are strings or absent, it is the template, then the caller's text, then,
    when the file contents are not empty, two line feeds, the label
    [Current project files:], a line feed and the contents; an empty
    string counts as absent.  Whenever the prompt is built at all, it
    starts with the template. *)
Theorem system_prompt_composition :
  (forall (sp fc : option jsstring) (s : state),
     build_system_prompt (option_map JStr sp) (option_map JStr fc) s
     = (Returned
          (system_template
           ++ match sp with Some x => x | None => [] end
           ++ match fc with
              | Some (c :: f) =>
                  [10; 10]%N ++ js "Current project files:" ++ [10]%N
                  ++ c :: f
              | _ => []
              end),
        s))
  /\ (forall (sp fc : value) (s : state) (p : jsstring),
        fst (build_system_prompt sp fc s) = Returned p ->
        exists rest, p = system_template ++ rest).
Proof.
  split.
  - intros sp fc s. rewrite build_system_prompt_eq. f_equal.
    unfold composed_prompt.
    destruct sp as [[|x sp]|], fc as [[|c f]|]; cbn -[system_template js];
      rewrite ?app_nil_r, <- ?app_assoc; reflexivity.
  - intros sp fc s p. rewrite build_system_prompt_eq. cbn [fst].
    unfold composed_prompt.
    destruct sp as [v|];
      [destruct (truthy (Some v));
       [destruct v; try destruct (ToString_other _)|]|];
      (destruct fc as [w|];
       [destruct (truthy (Some w));
        [destruct w; try destruct (ToString_other _)|]|]);
      intros H; try discriminate H; injection H as <-;
      rewrite <- ?app_assoc; eexists; reflexivity.
Qed.

(** ** The relay loop as a fold *)

Lemma add_all_app (l1 l2 : list jsstring) (s : state) :
  add_all (l1 ++ l2) s = add_all l2 (add_all l1 s).
Proof. apply fold_left_app. Qed.

Lemma offer_loop (l : list jsstring) (s : state) :
  for_each l (fun pkg =>
      installed <- gets packagesToInstall ;;
      if negb (array_includes installed pkg) then
        modify (fun s =>
          set_packagesToInstall (packagesToInstall s ++ [pkg]) s) ;;
        sendProgress (PackageEvent pkg (package_message pkg))
      else ret tt) s
  = (Returned tt, add_all l s).
Proof.
  revert s. induction l as [|x l IH]; intros s; [reflexivity|].
  cbn [for_each]. unfold bind at 1.
  assert ((installed <- gets packagesToInstall ;;
           if negb (array_includes installed x) then
             modify (fun s =>
               set_packagesToInstall (packagesToInstall s ++ [x]) s) ;;
             sendProgress (PackageEvent x (package_message x))
           else ret tt) s = (Returned tt, add_one s x)) as ->.
  { unfold bind, gets, add_one.
    destruct (array_includes (packagesToInstall s) x); reflexivity. }
  rewrite IH. reflexivity.
Qed.

Lemma package_loop (l : list jsstring) (s : state) :
  for_each l (fun group =>
    let packageName := trim group in
    installed <- gets packagesToInstall ;;
    if negb (str_eqb packageName [])
       && negb (array_includes installed packageName)
    then
      modify (fun s =>
        set_packagesToInstall (packagesToInstall s ++ [packageName]) s) ;;
      sendProgress (PackageEvent packageName (package_message packageName))
    else ret tt) s
  = (Returned tt,
     add_all (filter (fun n => negb (str_eqb n [])) (map trim l)) s).
Proof.
  revert s. induction l as [|g l IH]; intros s; [reflexivity|].
  cbn [for_each map filter]. unfold bind at 1. cbv zeta.
  unfold bind at 1, gets at 1.
  destruct (negb (str_eqb (trim g) [])) eqn:E; cbn [andb].
  - cbn [add_all fold_left]. fold (add_all
      (filter (fun n => negb (str_eqb n [])) (map trim l)) (add_one s (trim g))).
    rewrite <- IH. unfold add_one.
    destruct (array_includes (packagesToInstall s) (trim g)); reflexivity.
  - cbn [ret]. apply IH.
Qed.

Lemma packages_loop (l : list jsstring) (s : state) :
  for_each l (fun group =>
    let packagesContent := trim group in
    for_each (packagesList packagesContent) (fun pkg =>
      installed <- gets packagesToInstall ;;
      if negb (array_includes installed pkg) then
        modify (fun s =>
          set_packagesToInstall (packagesToInstall s ++ [pkg]) s) ;;
        sendProgress (PackageEvent pkg (package_message pkg))
      else ret tt)) s
  = (Returned tt,
     add_all (flat_map (fun group => packagesList (trim group)) l) s).
Proof.
  revert s. induction l as [|g l IH]; intros s; [reflexivity|].
  cbn [for_each flat_map]. unfold bind at 1. cbv zeta.
  rewrite offer_loop, add_all_app. apply IH.
Qed.

(** One pass of the loop body returns, and leaves the state [scanned]. *)
Lemma process_chunk_scanned (chunk : jsstring) (s : state) :
  process_chunk chunk s = (Returned tt, scanned chunk s).
Proof.
  unfold process_chunk, bind at 1 2 3.
  cbn [modify sendProgress gets]. cbv zeta.
  unfold bind at 1. rewrite package_loop.
  unfold bind at 1. rewrite packages_loop.
  unfold scanned, candidates. rewrite add_all_app. reflexivity.
Qed.

Lemma loop_scanned (l : list jsstring) (s : state) :
  for_each l process_chunk s
  = (Returned tt, fold_left (fun s c => scanned c s) l s).
Proof.
  revert s. induction l as [|c l IH]; intros s; [reflexivity|].
  cbn [for_each fold_left]. unfold bind.
  rewrite process_chunk_scanned. apply IH.
Qed.

(** The closure after its loop: the terminal event, the conversation
    update when the stream ran dry, the writer closed. *)
Lemma relay_after_loop (prompt isEdit : value) (l : list jsstring)
    (f : option thrown) (s0 : state) :
  let s1 := fold_left (fun s c => scanned c s) l (set_fullResponse [] s0) in
  let s' := run (relay prompt isEdit {| chunks := l; failure := f |}) s0 in
  written s' = written s1 ++ [terminal_event f s1]
  /\ packagesToInstall s' = packagesToInstall s1
  /\ tagBuffer s' = tagBuffer s1
  /\ fullResponse s' = fullResponse s1
  /\ closed s' = true.
Proof.
  intros s1 s'. subst s'. unfold run.
  assert (exists s2,
            relay prompt isEdit {| chunks := l; failure := f |} s0
            = (Returned tt, s2)
            /\ written s2 = written s1 ++ [terminal_event f s1]
            /\ packagesToInstall s2 = packagesToInstall s1
            /\ tagBuffer s2 = tagBuffer s1
            /\ fullResponse s2 = fullResponse s1
            /\ closed s2 = true) as (s2 & -> & H); [|exact H].
  unfold relay, try_catch_finally, for_await, bind at 1 2 3.
  cbn [modify failure chunks]. rewrite loop_scanned. fold s1.
  destruct f as [err|].
  { eexists. split; [reflexivity|]. repeat split. }
  destruct (conversationState s1) as [c|] eqn:Ec;
    unfold bind, gets, Date_now, push_message, set_lastUpdated, sendProgress,
      modify, ret;
    simpl; rewrite ?Ec; simpl; rewrite ?Ec; simpl;
    (eexists; split; [reflexivity|]; repeat split).
Qed.

(** ** Trimming *)

Lemma trimStart_fixed (c : N) (s : jsstring) :
  is_white_space c = false -> trimStart (c :: s) = c :: s.
Proof. intros H. cbn [trimStart]. now rewrite H. Qed.

Lemma trimStart_idem (s : jsstring) : trimStart (trimStart s) = trimStart s.
Proof.
  induction s as [|c s IH]; [reflexivity|]. cbn [trimStart].
  destruct (is_white_space c) eqn:E; [exact IH | now apply trimStart_fixed].
Qed.

Lemma trimStart_snoc (a : jsstring) (c : N) :
  is_white_space c = false -> trimStart (a ++ [c]) = trimStart a ++ [c].
Proof.
  intros H. induction a as [|x a IH]; cbn [app trimStart].
  - now rewrite H.
  - destruct (is_white_space x); [exact IH | reflexivity].
Qed.

(** What [trimStart] leaves is empty or starts with a code unit that is
    not white space. *)
Lemma trimStart_head (s : jsstring) :
  trimStart s = []
  \/ exists c t, trimStart s = c :: t /\ is_white_space c = false.
Proof.
  induction s as [|c s IH]; [left; reflexivity|]. cbn [trimStart].
  destruct (is_white_space c) eqn:E; [exact IH | right; eauto].
Qed.

Lemma trim_idem (s : jsstring) : trim (trim s) = trim s.
Proof.
  unfold trim, trimEnd.
  destruct (trimStart_head s) as [E|(c & t & E & Hc)]; rewrite E.
  - reflexivity.
  - cbn [rev]. rewrite trimStart_snoc by assumption.
    set (w := trimStart (rev t)).
    assert (rev (w ++ [c]) = c :: rev w) as Hr
      by (rewrite rev_app_distr; reflexivity).
    rewrite Hr, trimStart_fixed by assumption.
    cbn [rev]. rewrite rev_involutive, trimStart_snoc by assumption.
    unfold w at 1. rewrite trimStart_idem. exact Hr.
Qed.

(** ** What a scan offers and what it adds *)

Lemma candidates_trimmed (searchText x : jsstring) :
  In x (candidates searchText) -> x <> [] /\ trim x = x.
Proof.
  unfold candidates. rewrite in_app_iff, filter_In, in_map_iff, in_flat_map.
  intros [[(g & <- & _) Hne] | (g & _ & Hx)].
  - split; [|apply trim_idem]. intros E. rewrite E in Hne. discriminate.
  - unfold packagesList in Hx. rewrite filter_In, in_map_iff in Hx.
    destruct Hx as [(piece & <- & _) Hlen].
    split; [|apply trim_idem]. intros E. rewrite E in Hlen. discriminate.
Qed.

Lemma array_includes_true (arr : list jsstring) (x : jsstring) :
  array_includes arr x = true -> In x arr.
Proof.
  unfold array_includes. intros H. apply existsb_exists in H.
  destruct H as (y & Hy & E). apply str_eqb_eq in E. now subst y.
Qed.

(** [add_all] pushes and announces, in order, the names of [l] that were
    not there, each once, and touches nothing else. *)
Lemma add_all_spec (l : list jsstring) (s : state) :
  exists news,
    packagesToInstall (add_all l s) = packagesToInstall s ++ news
    /\ written (add_all l s) = written s ++ map package_event news
    /\ (forall x, In x news -> In x l)
    /\ (forall x, In x l -> In x (packagesToInstall s ++ news))
    /\ tagBuffer (add_all l s) = tagBuffer s
    /\ fullResponse (add_all l s) = fullResponse s
    /\ conversationState (add_all l s) = conversationState s
    /\ clock (add_all l s) = clock s
    /\ ticks (add_all l s) = ticks s
    /\ calls (add_all l s) = calls s
    /\ closed (add_all l s) = closed s.
Proof.
  revert s. induction l as [|x l IH]; intros s.
  - exists []. cbn. rewrite !app_nil_r. repeat split; auto.
    intros x [].
  - cbn [add_all fold_left]. fold (add_all l (add_one s x)).
    destruct (IH (add_one s x))
      as (news & Hp & Hw & Hin & Hall & Hb & Hf & Hc & Hk & Ht & Hl & Hd).
    unfold add_one in *.
    destruct (array_includes (packagesToInstall s) x) eqn:E.
    + exists news. repeat split; auto.
      * intros y Hy. right. auto.
      * intros y [<-|Hy]; [|auto].
        apply in_or_app. left. now apply array_includes_true.
    + cbn in Hp, Hw, Hall, Hb, Hf, Hc, Hk, Ht, Hl, Hd.
      exists (x :: news). rewrite <- !app_assoc in *. cbn [app map] in *.
      repeat split; auto.
      * intros y [<-|Hy]; [left; reflexivity | right; auto].
      * intros y [<-|Hy]; [|auto].
        apply in_or_app. right. left. reflexivity.
Qed.

(** One pass of the loop body, read off [scanned]. *)
Lemma scanned_spec (c : jsstring) (s : state) :
  exists news,
    packagesToInstall (scanned c s) = packagesToInstall s ++ news
    /\ written (scanned c s)
       = written s ++ TextEvent c :: map package_event news
    /\ (forall x, In x news -> In x (candidates (tagBuffer s ++ c)))
    /\ (forall x, In x (candidates (tagBuffer s ++ c)) ->
        In x (packagesToInstall (scanned c s)))
    /\ tagBuffer (scanned c s) = slice_last 100 (tagBuffer s ++ c)
    /\ fullResponse (scanned c s) = fullResponse s ++ c.
Proof.
  unfold scanned.
  destruct (add_all_spec (candidates (tagBuffer s ++ c))
              (set_written (written s ++ [TextEvent c])
                 (set_fullResponse (fullResponse s ++ c) s)))
    as (news & Hp & Hw & Hin & Hall & Hb & Hf & _).
  cbn in Hp, Hw, Hall, Hb, Hf.
  exists news. cbn [packagesToInstall written tagBuffer fullResponse
                      set_tagBuffer].
  rewrite Hp, Hw, Hf, <- app_assoc. repeat split; auto.
Qed.

(** ** The [<package>] scanner finds a whole tag *)

Lemma startsWith_nth (s p : jsstring) :
  startsWith s p = true ->
  forall k, k < length p -> nth_error s k = nth_error p k.
Proof.
  revert s. induction p as [|y p IH]; intros s H k Hk; [inversion Hk|].
  destruct s as [|x s]; [discriminate|]. cbn [startsWith] in H.
  apply andb_true_iff in H. destruct H as [Hx Hs]. apply N.eqb_eq in Hx.
  destruct k as [|k]; cbn [nth_error]; [now subst|].
  apply IH; [assumption | cbn [length] in Hk; lia].
Qed.

Lemma takeWhile_stop (p : N -> bool) (name : jsstring) (x : N)
    (rest : jsstring) :
  (forall c, In c name -> p c = true) -> p x = false ->
  takeWhile p (name ++ x :: rest) = name.
Proof.
  intros Hn Hx. induction name as [|c name IH]; cbn [app takeWhile].
  - now rewrite Hx.
  - rewrite (Hn c (or_introl eq_refl)). f_equal. apply IH.
    intros d Hd. apply Hn. now right.
Qed.

Lemma takeWhile_length_le (p : N -> bool) (a : jsstring) (x : N)
    (b : jsstring) :
  p x = false -> length (takeWhile p (a ++ x :: b)) <= length a.
Proof.
  intros Hx. induction a as [|c a IH]; cbn [app takeWhile length].
  - now rewrite Hx.
  - destruct (p c); cbn [length]; lia.
Qed.

Lemma package_tag_head (name post : jsstring) :
  exists rest, package_tag name ++ post = 60%N :: 112%N :: rest.
Proof. eexists. reflexivity. Qed.

(** Tried at its start, a tag matches, and the group is its name. *)
Lemma match_package_tag (name post : jsstring) :
  name <> [] -> (forall c, In c name -> c <> 60%N) ->
  match_package (package_tag name ++ post)
  = Some (name, 9 + length name + 10).
Proof.
  intros Hne Hlt. unfold match_package, package_tag.
  rewrite <- app_assoc, startsWith_app.
  change (skipn 9 (js "<package>" ++ (name ++ js "</package>") ++ post))
    with ((name ++ js "</package>") ++ post).
  rewrite <- app_assoc.
  change (js "</package>" ++ post) with (60%N :: (js "/package>" ++ post)).
  rewrite takeWhile_stop.
  - destruct name as [|c name]; [congruence|].
    rewrite skipn_app, skipn_all, Nat.sub_diag. cbn [app skipn].
    change (60%N :: js "/package>" ++ post) with (js "</package>" ++ post).
    now rewrite startsWith_app.
  - intros c Hc. unfold not_lt. apply negb_true_iff, N.eqb_neq. auto.
  - reflexivity.
Qed.

(** A match that starts before a tag ends before it. *)
Lemma match_package_clear (pre name post group : jsstring) (len : nat) :
  pre <> [] ->
  match_package (pre ++ package_tag name ++ post) = Some (group, len) ->
  len <= length pre.
Proof.
  intros Hpre. destruct (package_tag_head name post) as (T & HT).
  rewrite HT. unfold match_package. cbv zeta.
  destruct (startsWith (pre ++ 60%N :: 112%N :: T) (js "<package>")) eqn:HP;
    [|discriminate].
  assert (9 <= length pre) as H9.
  { destruct (Nat.le_gt_cases 9 (length pre)) as [|Hlt]; [assumption|].
    exfalso.
    pose proof (startsWith_nth _ _ HP (length pre) Hlt) as E.
    rewrite nth_error_app2, Nat.sub_diag in E by lia. cbn [nth_error] in E.
    destruct pre as [|c0 pre]; [congruence|]. cbn [length] in E, Hlt.
    do 8 (destruct pre as [|? pre]; [discriminate E|]).
    cbn [length] in Hlt. lia. }
  rewrite skipn_app. replace (9 - length pre) with 0 by lia.
  rewrite skipn_O. set (a := skipn 9 pre).
  assert (length a = length pre - 9) as Ha
    by (unfold a; apply length_skipn).
  pose proof (takeWhile_length_le not_lt a 60%N (112%N :: T) eq_refl) as Hg.
  destruct (takeWhile not_lt (a ++ 60%N :: 112%N :: T)) as [|g0 g] eqn:Eg;
    [intros E; discriminate E|].
  rewrite skipn_app.
  replace (length (g0 :: g) - length a) with 0 by lia.
  rewrite skipn_O. set (a' := skipn (length (g0 :: g)) a).
  assert (length a' = length a - length (g0 :: g)) as Ha'
    by (unfold a'; apply length_skipn).
  destruct (startsWith (a' ++ 60%N :: 112%N :: T) (js "</package>")) eqn:HQ;
    [|discriminate].
  intros E. injection E as _ <-.
  assert (10 <= length a'); [|cbn [length] in *; lia].
  destruct (Nat.le_gt_cases 10 (length a')) as [|Hlt]; [assumption|].
  exfalso. destruct a' as [|c0 a'].
  - pose proof (startsWith_nth _ _ HQ 1) as E. cbn in E.
    specialize (E ltac:(lia)). discriminate E.
  - pose proof (startsWith_nth _ _ HQ (length (c0 :: a')) Hlt) as E.
    rewrite nth_error_app2, Nat.sub_diag in E by lia. cbn [nth_error] in E.
    cbn [length] in E, Hlt.
    do 9 (destruct a' as [|? a']; [discriminate E|]).
    cbn [length] in Hlt. lia.
Qed.

(** Whatever comes before and after it, the scanner finds a well-formed
    tag whose name is not empty and holds no [<]. *)
Lemma exec_all_finds_tag (name post : jsstring) :
  name <> [] -> (forall c, In c name -> c <> 60%N) ->
  forall pre skip,
    skip <= length pre ->
    In name (exec_all match_package skip (pre ++ package_tag name ++ post)).
Proof.
  intros Hne Hlt pre.
  induction pre as [|c pre IH]; intros skip Hs.
  - assert (skip = 0) as -> by (cbn [length] in Hs; lia). cbn [app].
    pose proof (match_package_tag name post Hne Hlt) as Hm.
    destruct (package_tag_head name post) as (T & HT).
    rewrite HT in *. cbn [exec_all]. rewrite Hm. left. reflexivity.
  - cbn [app exec_all]. destruct skip as [|k].
    + destruct (match_package (c :: pre ++ package_tag name ++ post))
        as [[group len]|] eqn:Hm.
      * right. apply IH.
        pose proof (match_package_clear (c :: pre) name post group len
                      ltac:(discriminate) Hm) as Hl.
        cbn [length] in Hl. lia.
      * apply IH. lia.
    + apply IH. cbn [length] in Hs. lia.
Qed.

(** ** The whole loop, read off the fold *)

Lemma framed_cons (c : jsstring) (l : list jsstring) (news : list jsstring)
    (found : list (list jsstring)) :
  framed (c :: l) (news :: found)
  = TextEvent c :: map package_event news ++ framed l found.
Proof. reflexivity. Qed.

Lemma framed_contents (l : list jsstring) (found : list (list jsstring)) :
  length found = length l ->
  text_contents (framed l found) = l
  /\ package_names (framed l found) = concat found
  /\ Forall (fun e => is_terminal e = false) (framed l found).
Proof.
  revert found. induction l as [|c l IH]; intros [|news found] H;
    try discriminate H.
  - repeat split. constructor.
  - injection H as H. destruct (IH found H) as (Ht & Hp & Hf).
    rewrite framed_cons. cbn [text_contents package_names flat_map app concat].
    fold (text_contents (map package_event news ++ framed l found)).
    fold (package_names (map package_event news ++ framed l found)).
    rewrite text_contents_app, package_names_app, text_contents_packages,
      package_names_packages, Ht, Hp.
    repeat split. constructor; [reflexivity|].
    apply Forall_app. split; [|assumption].
    apply Forall_forall. intros e He. apply in_map_iff in He.
    destruct He as (x & <- & _). reflexivity.
Qed.

Lemma fold_scanned_spec (l : list jsstring) (s : state) :
  exists found,
    length found = length l
    /\ written (fold_left (fun s c => scanned c s) l s)
       = written s ++ framed l found
    /\ packagesToInstall (fold_left (fun s c => scanned c s) l s)
       = packagesToInstall s ++ concat found
    /\ fullResponse (fold_left (fun s c => scanned c s) l s)
       = fullResponse s ++ concat l.
Proof.
  revert s. induction l as [|c l IH]; intros s.
  - exists []. cbn. rewrite !app_nil_r. auto.
  - cbn [fold_left].
    destruct (scanned_spec c s) as (news & Hp & Hw & _ & _ & _ & Hf).
    destruct (IH (scanned c s)) as (found & Hl & Hw' & Hp' & Hf').
    exists (news :: found). rewrite Hw', Hp', Hf', Hw, Hp, Hf, framed_cons.
    cbn [length concat]. rewrite <- !app_assoc. cbn [app]. auto.
Qed.

Lemma fold_scanned_keeps (l : list jsstring) (s : state) (x : jsstring) :
  In x (packagesToInstall s) ->
  In x (packagesToInstall (fold_left (fun s c => scanned c s) l s)).
Proof.
  intros H. destruct (fold_scanned_spec l s) as (found & _ & _ & Hp & _).
  rewrite Hp. apply in_or_app. now left.
Qed.

(** The names a request announces are the array as the loop leaves it. *)
Lemma announced_packages_eq (prompt isEdit : value) (l : list jsstring)
    (f : option thrown) (cs : option ConversationState) (clk : nat -> Z)
    (n : nat) (cl : list call) :
  announced_packages prompt isEdit {| chunks := l; failure := f |}
    cs clk n cl
  = packagesToInstall
      (fold_left (fun s c => scanned c s) l
         (set_fullResponse [] (opened cs clk n cl))).
Proof.
  unfold announced_packages.
  destruct (relay_after_loop prompt isEdit l f (opened cs clk n cl))
    as (Hw & _).
  rewrite Hw.
  destruct (fold_scanned_spec l (set_fullResponse [] (opened cs clk n cl)))
    as (found & Hl & Hw' & Hp & _).
  rewrite Hw', Hp. cbn [written packagesToInstall opened set_fullResponse app].
  rewrite package_names_app.
  destruct (framed_contents l found Hl) as (_ & -> & _).
  destruct f; cbn; now rewrite app_nil_r.
Qed.

Lemma slice_last_keeps (n : nat) (x a : jsstring) :
  length a <= n -> exists y, slice_last n (x ++ a) = y ++ a.
Proof.
  intros H. unfold slice_last. rewrite skipn_app, length_app.
  replace (length x + length a - n - length x) with 0 by lia.
  eexists. reflexivity.
Qed.

Lemma In_skipn (x : N) (k : nat) (l : jsstring) :
  In x (skipn k l) -> In x l.
Proof.
  intros H. rewrite <- (firstn_skipn k l). apply in_or_app. now right.
Qed.

(** A text with no [<] offers nothing. *)
Lemma exec_all_no_lt (s : jsstring) :
  (forall c, In c s -> c <> 60%N) ->
  forall skip,
    exec_all match_package skip s = []
    /\ exec_all match_packages skip s = [].
Proof.
  induction s as [|c s IH]; intros H skip; [split; reflexivity|].
  assert (forall d, In d s -> d <> 60%N) as Hs
    by (intros d Hd; apply H; now right).
  assert ((c =? 60)%N = false) as Hc
    by (apply N.eqb_neq, H; now left).
  cbn [exec_all]. destruct skip as [|k]; [|apply IH; assumption].
  assert (match_package (c :: s) = None) as ->
    by (unfold match_package; cbn [startsWith js map list_ascii_of_string
                                    N_of_ascii];
        cbn; rewrite Hc; reflexivity).
  assert (match_packages (c :: s) = None) as ->
    by (unfold match_packages; cbn; rewrite Hc; reflexivity).
  apply IH; assumption.
Qed.

Lemma candidates_no_lt (s : jsstring) :
  (forall c, In c s -> c <> 60%N) -> candidates s = [].
Proof.
  intros H. unfold candidates.
  destruct (exec_all_no_lt s H 0) as [-> ->]. reflexivity.
Qed.

(** ** Further properties of the relay *)


(** X10.  The [complete] event lists the packages exactly as they were
    announced, the names of the [package] events in their order, and its
    message counts the code units of the response and those packages. *)
Theorem complete_event_lists_the_announced (prompt isEdit : value)
    (l : list jsstring) (cs : option ConversationState) (clk : nat -> Z)
    (n : nat) (cl : list call) :
  let st := {| chunks := l; failure := None |} in
  let pkgs := announced_packages prompt isEdit st cs clk n cl in
  exists evs,
    written (run (relay prompt isEdit st) (opened cs clk n cl))
    = evs
      ++ [CompleteEvent (concat l) pkgs
            (js "Generated " ++ nat_to_js (length (concat l))
             ++ js " characters with " ++ nat_to_js (length pkgs)
             ++ js " packages")]
    /\ package_names evs = pkgs.
Proof.
  intros st pkgs. subst pkgs st. unfold announced_packages, run.
  destruct (relay_exhausted prompt isEdit l cs clk n cl)
    as (evs & names & E & _ & Hp & _).
  rewrite E. cbn [snd written]. exists evs.
  rewrite package_names_app, Hp. cbn. rewrite app_nil_r. auto.
Qed.

(** X11.  A name that is announced is never empty and has no white space
    at either end. *)
Theorem announced_names_are_trimmed (prompt isEdit : value)
    (st : textStream) (cs : option ConversationState) (clk : nat -> Z)
    (n : nat) (cl : list call) :
  Forall (fun name => name <> [] /\ trim name = name)
    (announced_packages prompt isEdit st cs clk n cl).
Proof.
  destruct st as [l f]. rewrite announced_packages_eq.
  assert (forall s,
            Forall (fun name => name <> [] /\ trim name = name)
              (packagesToInstall s) ->
            Forall (fun name => name <> [] /\ trim name = name)
              (packagesToInstall (fold_left (fun s c => scanned c s) l s)))
    as H; [|apply H; constructor].
  induction l as [|c l IH]; intros s Hs; [exact Hs|].
  cbn [fold_left]. apply IH.
  destruct (scanned_spec c s) as (news & Hp & _ & Hin & _).
  rewrite Hp. apply Forall_app. split; [assumption|].
  apply Forall_forall. intros x Hx.
  exact (candidates_trimmed _ x (Hin x Hx)).
Qed.

(** X12.  A well-formed tag that lies within one chunk is always found:
    when its name holds no [<] and is not only white space, the trimmed
    name is among the announced, whatever stands before and after the tag
    in the chunk, whatever chunks come before and after, and whether or
    not the stream later throws. *)
Theorem tag_within_a_chunk_is_found (prompt isEdit : value)
    (name pre post : jsstring) (before after : list jsstring)
    (f : option thrown) (cs : option ConversationState) (clk : nat -> Z)
    (n : nat) (cl : list call) :
  (forall c, In c name -> c <> 60%N) ->
  trim name <> [] ->
  In (trim name)
    (announced_packages prompt isEdit
       {| chunks := before ++ [pre ++ package_tag name ++ post] ++ after;
          failure := f |} cs clk n cl).
Proof.
  intros Hlt Htrim. rewrite announced_packages_eq, !fold_left_app.
  apply fold_scanned_keeps. cbn [fold_left].
  set (s := fold_left (fun s c => scanned c s) before
              (set_fullResponse [] (opened cs clk n cl))).
  destruct (scanned_spec (pre ++ package_tag name ++ post) s)
    as (news & _ & _ & _ & Hall & _).
  apply Hall. unfold candidates. apply in_or_app. left.
  apply filter_In. split.
  - apply in_map. rewrite app_assoc.
    apply exec_all_finds_tag; [|assumption | lia].
    intros E. subst name. apply Htrim. reflexivity.
  - destruct (trim name); [congruence | reflexivity].
Qed.

(** X13.  A tag cut in two by a chunk boundary is found when the part in
    the earlier chunk is at most 100 code units long. *)
Theorem tag_cut_within_the_window_is_found (prompt isEdit : value)
    (name head tail pre post : jsstring) (before after : list jsstring)
    (f : option thrown) (cs : option ConversationState) (clk : nat -> Z)
    (n : nat) (cl : list call) :
  head ++ tail = package_tag name ->
  length head <= 100 ->
  (forall c, In c name -> c <> 60%N) ->
  trim name <> [] ->
  In (trim name)
    (announced_packages prompt isEdit
       {| chunks := before ++ [pre ++ head; tail ++ post] ++ after;
          failure := f |} cs clk n cl).
Proof.
  intros Hcut Hlen Hlt Htrim. rewrite announced_packages_eq, !fold_left_app.
  apply fold_scanned_keeps. cbn [fold_left].
  set (s := fold_left (fun s c => scanned c s) before
              (set_fullResponse [] (opened cs clk n cl))).
  destruct (scanned_spec (pre ++ head) s) as (_ & _ & _ & _ & _ & Hb & _).
  rewrite app_assoc in Hb.
  destruct (slice_last_keeps 100 (tagBuffer s ++ pre) head Hlen) as (y & Hy).
  rewrite Hy in Hb.
  destruct (scanned_spec (tail ++ post) (scanned (pre ++ head) s))
    as (news & _ & _ & _ & Hall & _).
  apply Hall. rewrite Hb. unfold candidates. apply in_or_app. left.
  apply filter_In. split.
  - apply in_map.
    replace ((y ++ head) ++ tail ++ post)
      with (y ++ package_tag name ++ post)
      by (rewrite <- Hcut, <- !app_assoc; reflexivity).
    apply exec_all_finds_tag; [|assumption | lia].
    intros E. subst name. apply Htrim. reflexivity.
  - destruct (trim name); [congruence | reflexivity].
Qed.

(** X14.  What is announced after some chunks stays announced, in the same
    order, whatever chunks follow and however the stream ends. *)
Theorem announced_packages_only_grow (prompt isEdit : value)
    (l more : list jsstring) (f : option thrown)
    (cs : option ConversationState) (clk : nat -> Z) (n : nat)
    (cl : list call) :
  exists later,
    announced_packages prompt isEdit
      {| chunks := l ++ more; failure := f |} cs clk n cl
    = announced_packages prompt isEdit
        {| chunks := l; failure := None |} cs clk n cl
      ++ later.
Proof.
  rewrite !announced_packages_eq, fold_left_app.
  destruct (fold_scanned_spec more
              (fold_left (fun s c => scanned c s) l
                 (set_fullResponse [] (opened cs clk n cl))))
    as (found & _ & _ & Hp & _).
  exists (concat found). exact Hp.
Qed.

(** X15.  A stream in which no [<] occurs announces no package. *)
Theorem no_tag_no_package (prompt isEdit : value) (l : list jsstring)
    (f : option thrown) (cs : option ConversationState) (clk : nat -> Z)
    (n : nat) (cl : list call) :
  (forall chunk c, In chunk l -> In c chunk -> c <> 60%N) ->
  announced_packages prompt isEdit {| chunks := l; failure := f |}
    cs clk n cl = [].
Proof.
  intros H. rewrite announced_packages_eq.
  assert (forall s,
            packagesToInstall s = [] ->
            (forall c, In c (tagBuffer s) -> c <> 60%N) ->
            packagesToInstall (fold_left (fun s c => scanned c s) l s) = [])
    as Hloop; [|apply Hloop; [reflexivity | intros c []]].
  induction l as [|chunk l IH]; intros s Hp Hb; [exact Hp|].
  assert (forall c, In c (tagBuffer s ++ chunk) -> c <> 60%N) as Hs.
  { intros c Hc. apply in_app_or in Hc. destruct Hc as [Hc|Hc]; [auto|].
    apply (H chunk c); [now left | assumption]. }
  cbn [fold_left]. apply IH.
  - intros chunk' c Hin. apply H. now right.
  - unfold scanned. rewrite (candidates_no_lt _ Hs). exact Hp.
  - unfold scanned. rewrite (candidates_no_lt _ Hs).
    cbn [add_all fold_left tagBuffer set_tagBuffer].
    intros c Hc. apply Hs. unfold slice_last in Hc.
    exact (In_skipn _ _ _ Hc).
Qed.

(** X16.  The events of a request depend on the stream alone: not on the
    prompt, the edit flag, the conversation state, the clock or the calls
    made before. *)
Theorem events_depend_on_the_stream_alone (st : textStream)
    (prompt isEdit prompt' isEdit' : value)
    (cs cs' : option ConversationState) (clk clk' : nat -> Z) (n n' : nat)
    (cl cl' : list call) :
  written (run (relay prompt isEdit st) (opened cs clk n cl))
  = written (run (relay prompt' isEdit' st) (opened cs' clk' n' cl')).
Proof.
  destruct st as [l f].
  destruct (relay_after_loop prompt isEdit l f (opened cs clk n cl))
    as (-> & _).
  destruct (relay_after_loop prompt' isEdit' l f (opened cs' clk' n' cl'))
    as (-> & _).
  assert (forall s s',
            written s = written s' ->
            packagesToInstall s = packagesToInstall s' ->
            tagBuffer s = tagBuffer s' ->
            fullResponse s = fullResponse s' ->
            let t := fold_left (fun s c => scanned c s) l s in
            let t' := fold_left (fun s c => scanned c s) l s' in
            written t = written t'
            /\ packagesToInstall t = packagesToInstall t'
            /\ fullResponse t = fullResponse t') as Hloop.
  { induction l as [|c l IH]; intros s s' Hw Hp Hb Hf; [cbn; auto|].
    cbn [fold_left]. cbv zeta.
    assert (forall cands (u u' : state),
              written u = written u' ->
              packagesToInstall u = packagesToInstall u' ->
              tagBuffer u = tagBuffer u' ->
              fullResponse u = fullResponse u' ->
              written (add_all cands u) = written (add_all cands u')
              /\ packagesToInstall (add_all cands u)
                 = packagesToInstall (add_all cands u')
              /\ tagBuffer (add_all cands u) = tagBuffer (add_all cands u')
              /\ fullResponse (add_all cands u)
                 = fullResponse (add_all cands u')) as Hadd.
    { induction cands as [|x cands IHc]; intros u u' Hw' Hp' Hb' Hf';
        [cbn; auto|].
      cbn [add_all fold_left]. apply IHc; unfold add_one; rewrite Hp';
        destruct (array_includes (packagesToInstall u') x); cbn;
        congruence. }
    apply IH; unfold scanned; rewrite Hb;
      destruct (Hadd (candidates (tagBuffer s' ++ c))
                  (set_written (written s ++ [TextEvent c])
                     (set_fullResponse (fullResponse s ++ c) s))
                  (set_written (written s' ++ [TextEvent c])
                     (set_fullResponse (fullResponse s' ++ c) s')))
        as (H1 & H2 & H3 & H4); cbn; try congruence; auto. }
  destruct (Hloop (set_fullResponse [] (opened cs clk n cl))
              (set_fullResponse [] (opened cs' clk' n' cl'))
              eq_refl eq_refl eq_refl eq_refl) as (Hw & Hp & Hf).
  rewrite Hw. unfold terminal_event. destruct f; [reflexivity|].
  now rewrite Hp, Hf.
Qed.

(** ** Message identifiers and the selector, once more *)

Lemma js_inj (a b : string) : js a = js b -> a = b.
Proof.
  unfold js. intros H.
  rewrite <- (string_of_list_ascii_of_string a),
    <- (string_of_list_ascii_of_string b).
  f_equal. revert H.
  generalize (list_ascii_of_string a) (list_ascii_of_string b).
  induction l as [|x l IH]; intros [|y l'] H; try discriminate;
    [reflexivity|].
  cbn [map] in H. injection H as Hx Hl. f_equal; [|auto].
  rewrite <- (ascii_N_embedding x), <- (ascii_N_embedding y).
  now rewrite Hx.
Qed.

(** Two numbers with the same decimal rendering are the same. *)
Lemma Z_to_js_inj (a b : Z) : Z_to_js a = Z_to_js b -> a = b.
Proof.
  unfold Z_to_js. intros H. apply js_inj in H.
  apply DecimalZ.to_int_inj.
  assert (forall z,
            Z.to_int z <> Decimal.Pos Decimal.Nil
            /\ Z.to_int z <> Decimal.Neg Decimal.Nil) as Hn.
  { intros [|p|p]; cbn; split; try discriminate; intros E;
      injection E as E; exact (DecimalPos.Unsigned.to_uint_nonnil p E). }
  pose proof (NilZero.isi (Z.to_int a) (proj1 (Hn a)) (proj2 (Hn a))) as Ha.
  pose proof (NilZero.isi (Z.to_int b) (proj1 (Hn b)) (proj2 (Hn b))) as Hb.
  rewrite H in Ha. congruence.
Qed.

(** X17.  When the clock does not run backwards between the first and the
    third reading, the two messages a request appends have different
    identifiers: the assistant's is made from the later reading plus
    one. *)
Theorem appended_messages_differ_in_id (prompt isEdit : value)
    (l : list jsstring) (c : ConversationState) (clk : nat -> Z) (n : nat)
    (cl : list call) :
  (clk n <= clk (2 + n)%nat)%Z ->
  exists c' m1 m2,
    conversationState
      (run (relay prompt isEdit {| chunks := l; failure := None |})
         (opened (Some c) clk n cl)) = Some c'
    /\ messages (conv_context c') = messages (conv_context c) ++ [m1; m2]
    /\ id m1 = js "msg-" ++ Z_to_js (clk n)
    /\ id m2 = js "msg-" ++ Z_to_js (clk (2 + n)%nat + 1)
    /\ id m1 <> id m2.
Proof.
  intros Hclk.
  destruct (relay_exhausted prompt isEdit l (Some c) clk n cl)
    as (evs & names & E & _).
  unfold run. rewrite E. cbn [snd conversationState].
  do 3 eexists. split; [reflexivity|]. split; [reflexivity|].
  split; [reflexivity|]. split; [reflexivity|].
  cbn [id user_message assistant_message]. intros H.
  apply app_inv_head in H. apply Z_to_js_inj in H. lia.
Qed.

(** X18.  Which client the selector calls, and with what: anthropic
    exactly for the identifiers that start with [anthropic/]; groq exactly
    for those that start with [openai/] and contain [gpt-oss]; openai
    exactly for the others that start with [openai/]; cerebras for all the
    rest.  The name passed on is the identifier, less at most one of the
    three prefixes. *)
Theorem selectModel_clients (model : jsstring) :
  (client (selectModel model) = Anthropic
   <-> startsWith model (js "anthropic/") = true)
  /\ (client (selectModel model) = Groq
      <-> startsWith model (js "openai/") = true
          /\ includes model (js "gpt-oss") = true)
  /\ (client (selectModel model) = OpenAI
      <-> startsWith model (js "openai/") = true
          /\ includes model (js "gpt-oss") = false)
  /\ (client (selectModel model) = Cerebras
      <-> startsWith model (js "anthropic/") = false
          /\ startsWith model (js "openai/") = false)
  /\ exists prefix,
       In prefix [ []; js "anthropic/"; js "openai/"; js "cerebras/" ]
       /\ model = prefix ++ modelId (selectModel model).
Proof.
  unfold selectModel.
  destruct (startsWith model (js "anthropic/")) eqn:Ha.
  { apply startsWith_iff in Ha. destruct Ha as (name & ->).
    rewrite replace_prefix.
    change (startsWith (js "anthropic/" ++ name) (js "openai/")) with false.
    cbn [client modelId anthropic].
    repeat split; try discriminate; try tauto;
      try (intros [? ?]; discriminate).
    exists (js "anthropic/"). split; [right; left|]; reflexivity. }
  destruct (startsWith model (js "openai/")) eqn:Ho.
  { apply startsWith_iff in Ho. destruct Ho as (name & ->).
    destruct (includes (js "openai/" ++ name) (js "gpt-oss")) eqn:Hi;
      rewrite ?replace_prefix; cbn [client modelId groq openai];
      (repeat split; try discriminate; try tauto;
       try (intros [? ?]; discriminate)).
    - exists []. split; [left|]; reflexivity.
    - exists (js "openai/"). split; [right; right; left|]; reflexivity. }
  destruct (startsWith model (js "cerebras/")) eqn:Hc.
  { apply startsWith_iff in Hc. destruct Hc as (name & ->).
    rewrite replace_prefix. cbn [client modelId cerebras].
    repeat split; try discriminate; try tauto;
      try (intros [? ?]; discriminate).
    exists (js "cerebras/"). split; [right; right; right; left|];
      reflexivity. }
  cbn [client modelId cerebras].
  repeat split; try discriminate; try tauto;
    try (intros [? ?]; discriminate).
  exists []. split; [left|]; reflexivity.
Qed.

End Handler.

(** ** The claims on concrete requests *)

Lemma selectModel_routes_witness :
  selectModel (js "openai/" ++ js "gpt-oss-20b")
  = groq (js "openai/" ++ js "gpt-oss-20b")
  /\ selectModel (js "openai/" ++ js "gpt-4") = openai (js "gpt-4")
  /\ selectModel (js "llama-3") = cerebras (js "llama-3").
Proof.
  split; [|split].
  - apply (proj1 (proj2 selectModel_routes)). reflexivity.
  - apply (proj1 (proj2 (proj2 selectModel_routes))). reflexivity.
  - apply (proj1 (proj2 (proj2 (proj2 (proj2 selectModel_routes)))));
      reflexivity.
Defined.


Lemma packages_block_announced_witness :
  In (js " lodash") (split (js "react, lodash"))
  /\ In 108%N (js " lodash")
  /\ 108%N <> 10%N /\ 108%N <> 44%N.
Proof.
  assert (In (js " lodash") (split (js "react, lodash"))) as Hp
    by (vm_compute; auto).
  assert (In 108%N (js " lodash")) as Hc by (vm_compute; auto).
  split; [exact Hp | split; [exact Hc|]].
  exact (proj1 (packages_block_announced (C := unit) (R := unit) v8_message)
           (js "react, lodash") (js " lodash") 108%N Hp Hc).
Defined.

(** C8 as stated fails: the model call throws, and the answer is a JSON
    body with status 500; no [error] event is written, no stream exists
    and no writer is closed. *)
Lemma model_call_error_is_not_an_event :
  stream_text rate_limited = Threw (JsError (js "rate limited"))
  /\ fst (POST v8_message object_to_string rate_limited
            (@fresh_process unit unit))
     = Returned (JsonResponse 500 (js "rate limited"))
  /\ error_events
       (written (run (POST v8_message object_to_string rate_limited)
                   (@fresh_process unit unit))) = []
  /\ closed (run (POST v8_message object_to_string rate_limited)
               (@fresh_process unit unit)) = false
  /\ ~ In NewTransformStream
         (calls (run (POST v8_message object_to_string rate_limited)
                   (@fresh_process unit unit))).
Proof.
  vm_compute. repeat split.
  intros [H | [H | []]]; discriminate H.
Qed.

Lemma stream_error_is_reported_witness :
  fst (POST v8_message object_to_string rate_limited
         (@fresh_process unit unit))
  = Returned (JsonResponse 500 (js "rate limited"))
  /\ written (run (POST v8_message object_to_string rate_limited)
                (@fresh_process unit unit)) = []
  /\ closed (run (POST v8_message object_to_string rate_limited)
               (@fresh_process unit unit)) = false.
Proof.
  destruct (proj1 (proj2 (stream_error_is_reported (C := unit) (R := unit)
                            v8_message object_to_string))
              rate_limited hello default_model system_template
              (JsError (js "rate limited")) fresh_process)
    as (H1 & _ & H3 & H4 & _); try reflexivity.
  split; [exact H1 | split; [exact H3 | exact H4]].
Defined.

Lemma failed_stream_leaves_conversation_state_witness :
  conversationState
    (run (relay v8_message (Some (JStr (js "hello"))) None broken_stream)
       (opened (Some (empty_conversation tt tt)) (fun n => Z.of_nat n) 0 []))
  = Some (empty_conversation tt tt)
  /\ ticks
       (run (relay v8_message (Some (JStr (js "hello"))) None broken_stream)
          (opened (Some (empty_conversation tt tt)) (fun n => Z.of_nat n)
             0 []))
     = 0.
Proof.
  apply (proj2 (failed_stream_leaves_conversation_state (C := unit)
                  (R := unit) v8_message)).
  vm_compute. discriminate.
Defined.

(** ** The further properties on concrete requests *)

Lemma json_answer_opens_no_stream_witness :
  fst (POST v8_message object_to_string rate_limited
         (@fresh_process unit unit))
  = Returned (JsonResponse 500 (js "rate limited"))
  /\ written (run (POST v8_message object_to_string rate_limited)
                (@fresh_process unit unit)) = []
  /\ closed (run (POST v8_message object_to_string rate_limited)
               (@fresh_process unit unit)) = false.
Proof.
  assert (fst (POST v8_message object_to_string rate_limited
                 (@fresh_process unit unit))
          = Returned (JsonResponse 500 (js "rate limited"))) as H
    by (vm_compute; reflexivity).
  destruct (json_answer_opens_no_stream v8_message object_to_string
              rate_limited fresh_process 500 (js "rate limited") H)
    as (Hw & Hc & _).
  split; [exact H | split; [exact Hw | exact Hc]].
Defined.

Lemma status_400_exactly_for_falsy_prompt_witness :
  fst (POST v8_message object_to_string
         (request [(js "prompt", JStr [])] no_stream)
         (@fresh_process unit unit))
  = Returned (JsonResponse 400 (js "prompt is required")).
Proof.
  apply (proj2 (status_400_exactly_for_falsy_prompt v8_message
                  object_to_string _ _ _)).
  split; [reflexivity|].
  exists (JObj [(js "prompt", JStr [])]).
  split; [reflexivity | split; [discriminate | reflexivity]].
Defined.



Lemma unreadable_body_is_500_witness :
  POST v8_message object_to_string unreadable (@fresh_process unit unit)
  = (Returned (JsonResponse 500 (js "Unexpected end of JSON input")),
     fresh_process).
Proof.
  apply (proj1 (unreadable_body_is_500 v8_message object_to_string
                  unreadable fresh_process)).
  reflexivity.
Defined.

Lemma accepted_request_calls_witness :
  fst (POST v8_message object_to_string answered (@fresh_process unit unit))
  = Returned EventStream
  /\ calls (run (POST v8_message object_to_string answered)
              (@fresh_process unit unit))
     = [ProviderCall (cerebras (js "qwen-3-235b-a22b-instruct-2507"));
        StreamTextCall (cerebras (js "qwen-3-235b-a22b-instruct-2507"))
          system_template (Some (JStr (js "hello")))
          (Some (JNum default_temperature)) 8000;
        NewTransformStream].
Proof.
  apply (accepted_request_calls v8_message object_to_string answered
           (JObj hello) default_model system_template
           {| chunks := [js "Use <package>zod"; js "</package> here"];
              failure := None |} fresh_process).
  - split; [reflexivity | split; [discriminate | reflexivity]].
  - reflexivity.
  - vm_compute. reflexivity.
  - reflexivity.
Defined.

Lemma system_prompt_composition_witness :
  exists rest,
    system_template ++ js "Be brief." = system_template ++ rest.
Proof.
  apply (proj2 (system_prompt_composition (C := unit) (R := unit)
                  object_to_string)
           (Some (JStr (js "Be brief."))) None fresh_process).
  vm_compute. reflexivity.
Defined.

Lemma tag_within_a_chunk_is_found_witness :
  In (trim (js " zod "))
    (announced_packages (C := unit) (R := unit) v8_message
       (Some (JStr (js "hello"))) None
       {| chunks := [js "First. "]
                    ++ [js "Use " ++ package_tag (js " zod ") ++ js " now"]
                    ++ [js " Done."];
          failure := None |} None (fun n => Z.of_nat n) 0 []).
Proof.
  apply tag_within_a_chunk_is_found.
  - intros c Hc. vm_compute in Hc.
    repeat (destruct Hc as [<-|Hc]; [discriminate|]). destruct Hc.
  - vm_compute. discriminate.
Defined.

Lemma tag_cut_within_the_window_is_found_witness :
  In (trim (js "zod"))
    (announced_packages (C := unit) (R := unit) v8_message
       (Some (JStr (js "hello"))) None
       {| chunks := []
                    ++ [js "Use " ++ js "<package>zo";
                        js "d</package>" ++ js " now"]
                    ++ [];
          failure := None |} None (fun n => Z.of_nat n) 0 []).
Proof.
  apply tag_cut_within_the_window_is_found.
  - reflexivity.
  - vm_compute. lia.
  - intros c Hc. vm_compute in Hc.
    repeat (destruct Hc as [<-|Hc]; [discriminate|]). destruct Hc.
  - vm_compute. discriminate.
Defined.

Lemma no_tag_no_package_witness :
  announced_packages (C := unit) (R := unit) v8_message
    (Some (JStr (js "hello"))) None
    {| chunks := [js "a > b"; js "plain text"]; failure := None |}
    None (fun n => Z.of_nat n) 0 []
  = [].
Proof.
  apply no_tag_no_package.
  intros chunk c Hin Hc. vm_compute in Hin.
  destruct Hin as [<-|[<-|[]]]; vm_compute in Hc;
    repeat (destruct Hc as [<-|Hc]; [discriminate|]); destruct Hc.
Defined.

Lemma appended_messages_differ_in_id_witness :
  exists c' m1 m2,
    conversationState
      (run (relay v8_message (Some (JStr (js "hello"))) None
              {| chunks := [js "hi"]; failure := None |})
         (opened (Some (empty_conversation tt tt))
            (fun n => 1700000000000 + Z.of_nat n)%Z 0 []))
    = Some c'
    /\ messages (conv_context c')
       = messages (conv_context (empty_conversation tt tt)) ++ [m1; m2]
    /\ id m1 = js "msg-" ++ Z_to_js (1700000000000 + Z.of_nat 0)
    /\ id m2 = js "msg-" ++ Z_to_js (1700000000000 + Z.of_nat (2 + 0) + 1)
    /\ id m1 <> id m2.
Proof.
  apply (appended_messages_differ_in_id v8_message
           (Some (JStr (js "hello"))) None [js "hi"]
           (empty_conversation tt tt)
           (fun n => 1700000000000 + Z.of_nat n)%Z 0 []).
  vm_compute. discriminate.
Defined.

Lemma selectModel_clients_witness :
  client (selectModel (js "openai/gpt-oss-120b")) = Groq.
Proof.
  apply (proj1 (proj2 (selectModel_clients (js "openai/gpt-oss-120b")))).
  split; reflexivity.
Defined.

Lemma POST_null_body_witness :
  POST v8_message object_to_string
    {| request_json := Returned JNull; stream_text := no_stream |}
    (@fresh_process unit unit)
  = (Returned
       (JsonResponse 500
          (js "Cannot destructure property 'prompt' of '(intermediate value)' as it is null.")),
     fresh_process).
Proof.
  apply (POST_null_body v8_message object_to_string). reflexivity.
Defined.
